(** * Research Paper Simplifier: the upload, quiz and flashcard handlers

    A shallow embedding of [main.py]: the abstract locator of
    [upload_paper], the two generation routines that call the hosted model and
    read its JSON answer, and the three request handlers, with the temporary
    file and the remote calls kept in an explicit world state. *)

From Stdlib Require Import ZArith NArith List Ascii String Bool Lia DecimalString.
From stdpp Require Import base option list gmap.

Local Open Scope Z_scope.

(** ** Python strings

    A [str] is a sequence of Unicode code points; positions and lengths are
    Python integers, so [-1] can be a position. *)

Abbreviation str := (list N).

Definition lit (s : string) : str := map N_of_ascii (list_ascii_of_string s).

Definition len {A} (s : list A) : Z := Z.of_nat (length s).

(** [sub] is read at the head of [s]. *)
Fixpoint starts_with (sub s : str) : bool :=
  match sub, s with
  | [], _ => true
  | _ :: _, [] => false
  | a :: sub', b :: s' => (a =? b)%N && starts_with sub' s'
  end.

(** The scan of [str.find]: the lowest position, counted from [i], at which
    [sub] is read in [s]; [-1] when there is none. *)
Fixpoint find_from (sub s : str) (i : Z) : Z :=
  if starts_with sub s then i
  else match s with
       | [] => -1
       | _ :: s' => find_from sub s' (i + 1)
       end.

(** [s.find(sub, start)]: a negative [start] counts from the end and is
    clipped at 0; a [start] beyond the end finds nothing. *)
Definition find (s sub : str) (start : Z) : Z :=
  let n := len s in
  let st := if start <? 0 then Z.max 0 (start + n) else start in
  if n <? st then -1 else find_from sub (drop (Z.to_nat st) s) st.

(** A slice bound: negative bounds count from the end, and every bound is
    clipped to [0, n]. *)
Definition clip (n i : Z) : Z :=
  if i <? 0 then Z.max 0 (i + n) else Z.min i n.

(** [s[lo:hi]]. *)
Definition slice (s : str) (lo hi : Z) : str :=
  let n := len s in
  let lo' := clip n lo in
  let hi' := clip n hi in
  take (Z.to_nat (hi' - lo')) (drop (Z.to_nat lo') s).

(** [s[:hi]]. *)
Definition slice_to (s : str) (hi : Z) : str := slice s 0 hi.

(** [str.isspace] on one code point: the white space of Unicode. *)
Definition isspace (c : N) : bool :=
  ((9 <=? c) && (c <=? 13) || (28 <=? c) && (c <=? 32) ||
   (c =? 133) || (c =? 160) || (c =? 5760) ||
   (8192 <=? c) && (c <=? 8202) || (c =? 8232) || (c =? 8233) ||
   (c =? 8239) || (c =? 8287) || (c =? 12288))%N.

Fixpoint lstrip (s : str) : str :=
  match s with
  | [] => []
  | c :: s' => if isspace c then lstrip s' else s
  end.

Definition rstrip (s : str) : str := rev (lstrip (rev s)).

(** [s.strip()]. *)
Definition strip (s : str) : str := rstrip (lstrip s).

(** [str.lower] on one code point. The capitals of ASCII move by 32; U+0130
    (capital I with dot above) becomes the two code points U+0069 U+0307, the
    only lower-casing of Unicode that changes the length; U+212A (Kelvin sign)
    becomes [k]. The other case pairs of Unicode send one code point to one
    code point outside ASCII: they move no position and touch no ASCII
    letter, and are left in place here. *)
Definition lower_char (c : N) : str :=
  (if (65 <=? c) && (c <=? 90) then [c + 32]
   else if c =? 304 then [105; 775]
   else if c =? 8490 then [107]
   else [c])%N.

(** [s.lower()]. *)
Definition lower (s : str) : str := flat_map lower_char s.

(** ** Exceptions *)

Inductive exn_type :=
  | TypeError | AttributeError | IndexError | JSONDecodeError | OSError
  | FileDataError | RemoteError.

Record exn := Exn { exn_kind : exn_type; exn_msg : str }.

Inductive result (A : Type) :=
  | Ok (a : A)
  | Raise (e : exn).
Arguments Ok {A} a.
Arguments Raise {A} e.

(** ** The abstract locator (the inner [try] of [upload_paper]) *)

Definition sentinel : str := lit "Could not automatically find abstract.".
Definition start_marker : str := lit "abstract".
Definition end_marker : str := lit "introduction".

(** The body of the [try]: every step is a method of [str] applied to a
    [str] and returns. *)
Definition locate_try (full_text : str) : result str :=
  let raw_abstract := sentinel in
  let start_index := find (lower full_text) start_marker 0 in
  let end_index := find (lower full_text) end_marker start_index in
  if negb (start_index =? -1) && negb (end_index =? -1) then
    Ok (strip (slice full_text (start_index + len start_marker) end_index))
  else if negb (start_index =? -1) then
    Ok (strip (slice full_text (start_index + len start_marker)
                     (start_index + 3000)))
  else Ok raw_abstract.

(** The [try] with its [except Exception] branch. *)
Definition abstract_locator (full_text : str) : str :=
  match locate_try full_text with
  | Ok raw_abstract => raw_abstract
  | Raise _ => slice_to full_text 3000
  end.

(** ** JSON values and [json.loads]

    Numbers with a fraction or an exponent keep their text: no claim reads a
    float. A [dict] keeps its keys in insertion order. *)

Inductive json :=
  | JNull
  | JBool (b : bool)
  | JInt (z : Z)
  | JFloat (text : str)
  | JStr (s : str)
  | JList (items : list json)
  | JDict (items : list (str * json)).

Definition str_eqb (a b : str) : bool := bool_decide (a = b).

(** [d[k] = v]: an existing key keeps its place and takes the new value. *)
Fixpoint dict_set (d : list (str * json)) (k : str) (v : json)
  : list (str * json) :=
  match d with
  | [] => [(k, v)]
  | (k', v') :: d' =>
      if str_eqb k' k then (k, v) :: d' else (k', v') :: dict_set d' k v
  end.

Fixpoint dict_lookup (d : list (str * json)) (k : str) : option json :=
  match d with
  | [] => None
  | (k', v) :: d' => if str_eqb k' k then Some v else dict_lookup d' k
  end.

Fixpoint skip_ws (s : str) : str :=
  match s with
  | c :: s' =>
      if ((c =? 32) || (c =? 9) || (c =? 10) || (c =? 13))%N
      then skip_ws s' else s
  | [] => []
  end.

Definition is_digit (c : N) : bool := ((48 <=? c) && (c <=? 57))%N.

Definition hex_value (c : N) : option N :=
  (if (48 <=? c) && (c <=? 57) then Some (c - 48)
   else if (97 <=? c) && (c <=? 102) then Some (c - 87)
   else if (65 <=? c) && (c <=? 70) then Some (c - 55)
   else None)%N.

(** The four hexadecimal digits of a [\u] escape. *)
Definition hex4 (s : str) : option (N * str) :=
  match s with
  | a :: b :: c :: d :: rest =>
      match hex_value a, hex_value b, hex_value c, hex_value d with
      | Some x, Some y, Some z, Some t =>
          Some (((x * 16 + y) * 16 + z) * 16 + t, rest)%N
      | _, _, _, _ => None
      end
  | _ => None
  end.

(** The text of a string after its opening quote, up to the closing one.
    A raw control character ends the scan in failure, and a high surrogate
    followed by an escaped low one makes one code point. *)
Fixpoint scan_string (fuel : nat) (s acc : str) : option (str * str) :=
  match fuel with
  | O => None
  | S fuel' =>
      match s with
      | [] => None
      | c :: rest =>
          (if c =? 34 then Some (rev acc, rest)
           else if c <? 32 then None
           else if c =? 92 then
             match rest with
             | [] => None
             | e :: rest' =>
                 if e =? 34 then scan_string fuel' rest' (34 :: acc)
                 else if e =? 92 then scan_string fuel' rest' (92 :: acc)
                 else if e =? 47 then scan_string fuel' rest' (47 :: acc)
                 else if e =? 98 then scan_string fuel' rest' (8 :: acc)
                 else if e =? 102 then scan_string fuel' rest' (12 :: acc)
                 else if e =? 110 then scan_string fuel' rest' (10 :: acc)
                 else if e =? 114 then scan_string fuel' rest' (13 :: acc)
                 else if e =? 116 then scan_string fuel' rest' (9 :: acc)
                 else if e =? 117 then
                   match hex4 rest' with
                   | None => None
                   | Some (u, after) =>
                       let single := scan_string fuel' after (u :: acc) in
                       if (55296 <=? u) && (u <=? 56319) then
                         match after with
                         | b :: l :: after' =>
                             if (b =? 92) && (l =? 117) then
                               match hex4 after' with
                               | Some (u2, after2) =>
                                   if (56320 <=? u2) && (u2 <=? 57343) then
                                     scan_string fuel' after2
                                       (65536 + (u - 55296) * 1024
                                        + (u2 - 56320) :: acc)
                                   else single
                               | None => single
                               end
                             else single
                         | _ => single
                         end
                       else single
                   end
                 else None
             end
           else scan_string fuel' rest (c :: acc))%N
      end
  end.

Fixpoint span_digits (s : str) : str * str :=
  match s with
  | c :: s' =>
      if is_digit c then let (d, r) := span_digits s' in (c :: d, r)
      else ([], s)
  | [] => ([], [])
  end.

Definition digits_value (d : str) : Z :=
  fold_left (fun acc c => acc * 10 + Z.of_N (c - 48)) d 0.

(** A number: an optional minus sign, then 0 or a digit string with no
    leading 0, then an optional fraction and an optional exponent. *)
Definition scan_number (s : str) : option (json * str) :=
  let (neg, s1) :=
    match s with
    | c :: r => if (c =? 45)%N then (true, r) else (false, s)
    | [] => (false, s)
    end in
  let (int_part, s2) :=
    match s1 with
    | c :: r => if (c =? 48)%N then ([c], r) else span_digits s1
    | [] => ([], s1)
    end in
  match int_part with
  | [] => None
  | _ :: _ =>
      let (frac, s3) :=
        match s2 with
        | c :: r =>
            if (c =? 46)%N then
              match span_digits r with
              | ([], _) => ([], s2)
              | (d, r') => (c :: d, r')
              end
            else ([], s2)
        | [] => ([], s2)
        end in
      let (expo, s4) :=
        match s3 with
        | c :: r =>
            if ((c =? 101) || (c =? 69))%N then
              let (sign, r1) :=
                match r with
                | g :: r' =>
                    if ((g =? 43) || (g =? 45))%N then ([g], r') else ([], r)
                | [] => ([], r)
                end in
              match span_digits r1 with
              | ([], _) => ([], s3)
              | (d, r') => (c :: sign ++ d, r')
              end
            else ([], s3)
        | [] => ([], s3)
        end in
      let sign_text := if neg then [45%N] else [] in
      match frac, expo with
      | [], [] =>
          Some (JInt (if neg then - digits_value int_part
                      else digits_value int_part), s4)
      | _, _ => Some (JFloat (sign_text ++ int_part ++ frac ++ expo), s4)
      end
  end.

(** A fixed word at the head of the input. *)
Definition scan_word (w : string) (v : json) (s : str) : option (json * str) :=
  if starts_with (lit w) s
  then Some (v, drop (length (lit w)) s) else None.

Definition first_some {A} (a b : option A) : option A :=
  match a with Some _ => a | None => b end.

(** The recursive descent of the decoder. Each call spends one unit of fuel
    and reads at least one code point. *)
Fixpoint parse_value (fuel : nat) (s : str) : option (json * str) :=
  match fuel with
  | O => None
  | S fuel' =>
      match s with
      | [] => None
      | c :: rest =>
          (if c =? 34 then
             match scan_string (length rest) rest [] with
             | Some (txt, r) => Some (JStr txt, r)
             | None => None
             end
           else if c =? 123 then
             match skip_ws rest with
             | c' :: r' =>
                 if c' =? 125 then Some (JDict [], r')
                 else parse_members fuel' (c' :: r') []
             | [] => None
             end
           else if c =? 91 then
             match skip_ws rest with
             | c' :: r' =>
                 if c' =? 93 then Some (JList [], r')
                 else parse_items fuel' (c' :: r') []
             | [] => None
             end
           else
             first_some (scan_word "null" JNull s)
            (first_some (scan_word "true" (JBool true) s)
            (first_some (scan_word "false" (JBool false) s)
            (first_some (scan_word "NaN" (JFloat (lit "NaN")) s)
            (first_some (scan_word "Infinity" (JFloat (lit "Infinity")) s)
            (first_some (scan_word "-Infinity" (JFloat (lit "-Infinity")) s)
                        (scan_number s)))))))%N
      end
  end
with parse_items (fuel : nat) (s : str) (acc : list json)
  : option (json * str) :=
  match fuel with
  | O => None
  | S fuel' =>
      match parse_value fuel' s with
      | None => None
      | Some (v, r) =>
          match skip_ws r with
          | c :: r' =>
              (if c =? 93 then Some (JList (rev (v :: acc)), r')
               else if c =? 44
               then parse_items fuel' (skip_ws r') (v :: acc)
               else None)%N
          | [] => None
          end
      end
  end
with parse_members (fuel : nat) (s : str) (acc : list (str * json))
  : option (json * str) :=
  match fuel with
  | O => None
  | S fuel' =>
      match s with
      | c :: rest =>
          (if c =? 34 then
             match scan_string (length rest) rest [] with
             | None => None
             | Some (k, r) =>
                 match skip_ws r with
                 | c1 :: r1 =>
                     if c1 =? 58 then
                       match parse_value fuel' (skip_ws r1) with
                       | None => None
                       | Some (v, r2) =>
                           match skip_ws r2 with
                           | c2 :: r3 =>
                               if c2 =? 125
                               then Some (JDict (dict_set acc k v), r3)
                               else if c2 =? 44
                               then parse_members fuel' (skip_ws r3)
                                                  (dict_set acc k v)
                               else None
                           | [] => None
                           end
                       end
                     else None
                 | [] => None
                 end
             end
           else None)%N
      | [] => None
      end
  end.

(** [json.loads(content)]: [TypeError] when [content] is not a string,
    [JSONDecodeError] when it is not one JSON document. *)
Definition json_loads (content : option str) : result json :=
  match content with
  | None => Raise (Exn TypeError (lit "the JSON object must be str"))
  | Some s =>
      match parse_value (2 * length s + 2) (skip_ws s) with
      | Some (v, r) =>
          match skip_ws r with
          | [] => Ok v
          | _ :: _ => Raise (Exn JSONDecodeError (lit "Extra data"))
          end
      | None => Raise (Exn JSONDecodeError (lit "Expecting value"))
      end
  end.

(** ** The world outside the process

    The handlers act on the files of the working directory and on the remote
    model. [fs] holds what sits at each path, a regular file or a directory;
    a path is taken as it is written, so two spellings of one file are two
    paths here. [may_create] says at which paths the process may add or
    remove an entry (write access to the directory of the path). [sent]
    lists the requests that went out to the remote model, [stdout] what was
    printed. *)

(** What sits at a path: a regular file with its bytes, or a directory. *)
Inductive node :=
  | File (data : list Byte.byte)
  | Dir.

Record message := Message { role : str; content : str }.

Record chat_request := ChatRequest {
  model : str;
  response_format : option str;
  messages : list message
}.

Record chat_choice := ChatChoice { message_content : option str }.

Record chat_response := ChatResponse { choices : list chat_choice }.

Record world := World {
  fs : gmap str node;
  may_create : str -> bool;
  sent : list chat_request;
  stdout : list str
}.

Definition set_fs (f : gmap str node) (w : world) : world :=
  World f (may_create w) (sent w) (stdout w).

(** Computations that may raise and that change the world. *)
Definition M (A : Type) : Type := world -> result A * world.

Definition ret {A} (a : A) : M A := fun w => (Ok a, w).

Definition raise {A} (e : exn) : M A := fun w => (Raise e, w).

Definition lift {A} (r : result A) : M A := fun w => (r, w).

Definition bind {A B} (c : M A) (k : A -> M B) : M B :=
  fun w =>
    match c w with
    | (Ok a, w') => k a w'
    | (Raise e, w') => (Raise e, w')
    end.

Notation "x <- c ;; k" := (bind c (fun x => k))
  (at level 100, c at next level, k at level 200, right associativity).
Notation "'run' c ;; k" := (bind c (fun _ => k))
  (at level 100, c at next level, k at level 200, right associativity).

(** [try: c  except Exception as e: h e]. *)
Definition try_except {A} (c : M A) (h : exn -> M A) : M A :=
  fun w =>
    match c w with
    | (Ok a, w') => (Ok a, w')
    | (Raise e, w') => h e w'
    end.

(** [try: c  finally: f]: [f] runs on every way out of [c]; what [c]
    returned or raised stands unless [f] itself raises. *)
Definition try_finally {A} (c : M A) (f : M unit) : M A :=
  fun w =>
    let (r, w') := c w in
    match f w' with
    | (Ok _, w'') => (r, w'')
    | (Raise e, w'') => (Raise e, w'')
    end.

Definition print (line : str) : M unit :=
  fun w => (Ok tt, World (fs w) (may_create w) (sent w) (stdout w ++ [line])).

(** ** The remote model *)

(** The client object: the key it was built with, and what the remote
    service answers to a request. *)
Record Mistral := MkMistral {
  api_key : str;
  endpoint : chat_request -> result chat_response
}.

(** Module start: [client] stays [None] unless the environment holds a
    non-empty [MISTRAL_API_KEY]. Building the client sends nothing. *)
Definition init_client (MISTRAL_API_KEY : option str)
    (remote : chat_request -> result chat_response) : option Mistral :=
  match MISTRAL_API_KEY with
  | Some (c :: key) => Some (MkMistral (c :: key) remote)
  | Some [] => None
  | None => None
  end.

(** [client.chat.complete(...)]: the one place where a request leaves the
    process. *)
Definition chat_complete (client : Mistral) (req : chat_request)
  : M chat_response :=
  fun w =>
    (endpoint client req,
     World (fs w) (may_create w) (sent w ++ [req]) (stdout w)).

(** [l[0]]. *)
Definition first_item {A} (l : list A) : M A :=
  match l with
  | x :: _ => ret x
  | [] => raise (Exn IndexError (lit "list index out of range"))
  end.

(** [v.get(key, default)]: only a [dict] has the method. *)
Definition py_get (v : json) (key : str) (default : json) : M json :=
  match v with
  | JDict d =>
      match dict_lookup d key with
      | Some x => ret x
      | None => ret default
      end
  | _ => raise (Exn AttributeError (lit "object has no attribute 'get'"))
  end.

Definition qt : str := [34%N].
Definition nl : str := [10%N].

(** [s] between double quotes. *)
Definition quoted (s : str) : str := qt ++ s ++ qt.

(** [str(n)] for an [int]. *)
Definition str_of_int (n : Z) : str := lit (NilZero.string_of_int (Z.to_int n)).

Definition model_name : str := lit "mistral-small-latest".

(** ** Quiz generation *)

Definition quiz_prompt (text : str) (num_questions : Z) (difficulty : str)
  : str :=
  nl ++ lit "    You are an expert at creating educational quizzes from academic text." ++ nl
  ++ lit "    Your task is to generate a quiz with " ++ str_of_int num_questions
  ++ lit " unique, high-quality questions based on the provided text." ++ nl
  ++ nl
  ++ lit "    Rules:" ++ nl
  ++ lit "    - Output ONLY a valid JSON object with a single key "
  ++ qt ++ lit "questions" ++ qt ++ lit "." ++ nl
  ++ lit "    - Each item must have keys: " ++ qt ++ lit "question" ++ qt
  ++ lit ", " ++ qt ++ lit "options" ++ qt ++ lit " (an array of 4 strings), "
  ++ qt ++ lit "answer" ++ qt ++ lit " (" ++ qt ++ lit "A" ++ qt ++ lit ", "
  ++ qt ++ lit "B" ++ qt ++ lit ", " ++ qt ++ lit "C" ++ qt ++ lit ", or "
  ++ qt ++ lit "D" ++ qt ++ lit "), and " ++ qt ++ lit "explanation" ++ qt
  ++ lit "." ++ nl
  ++ lit "    - The difficulty level should be: " ++ difficulty ++ lit "." ++ nl
  ++ lit "    - Base all questions STRICTLY on the text provided below." ++ nl
  ++ lit "    " ++ nl
  ++ lit "    ### Provided Text ###" ++ nl
  ++ lit "    " ++ text ++ nl
  ++ lit "    ".

Definition generate_quiz_from_text (client : option Mistral) (text : str)
    (num_questions : Z) (difficulty : str) : M (list json) :=
  match client with
  | None =>
      run print (lit "Error: Mistral client is not initialized.") ;;
      ret []
  | Some client =>
      let prompt := quiz_prompt text num_questions difficulty in
      try_except
        (let messages :=
           [Message (lit "system") (lit "You are a helpful assistant that strictly follows instructions to generate a quiz in a JSON format.");
            Message (lit "user") prompt] in
         chat_response <-
           chat_complete client
             (ChatRequest model_name (Some (lit "json_object")) messages) ;;
         choice <- first_item (choices chat_response) ;;
         let content_str := message_content choice in
         parsed_json <- lift (json_loads content_str) ;;
         q_list <- py_get parsed_json (lit "questions") (JList []) ;;
         match q_list with
         | JList l => ret l
         | _ =>
             run print (lit "Error: The 'questions' key did not contain a list.") ;;
             ret []
         end)
        (fun e =>
           run print (lit "An unexpected error occurred with the Mistral API call: "
                  ++ exn_msg e) ;;
           ret [])
  end.

(** What a handler answers. *)
Inductive response :=
  | IndexPage
  | ResultsPage (filename : option str) (summary : option str)
                (raw_abstract : str)
  | QuizPage (questions : list json) (error : option str)
  | FlashcardsPage (flashcards : list json) (error : option str)
  | RedirectResponse (url : str) (status_code : Z).

Definition quiz_error_message : str :=
  lit "Failed to generate quiz from the model. It might be too busy or the abstract was too complex. Please try again.".

(** [not l] for a list. *)
Definition is_empty {A} (l : list A) : bool :=
  match l with [] => true | _ :: _ => false end.

Definition get_quiz_questions (client : option Mistral) (abstract : str)
    (difficulty : str) (num_questions : Z) : M response :=
  questions <- generate_quiz_from_text client abstract num_questions difficulty ;;
  if is_empty questions then
    let error_message := quiz_error_message in
    ret (QuizPage [] (Some error_message))
  else ret (QuizPage questions None).

(** ** Flashcard generation *)

Definition flashcards_prompt (text : str) (num_cards : Z) : str :=
  nl ++ lit "    You are an expert at creating educational study materials." ++ nl
  ++ lit "    Your task is to generate " ++ str_of_int num_cards
  ++ lit " key-term flashcards based on the provided text." ++ nl
  ++ nl
  ++ lit "    Rules:" ++ nl
  ++ lit "    - Output ONLY a valid JSON object with a single key "
  ++ qt ++ lit "flashcards" ++ qt ++ lit "." ++ nl
  ++ lit "    - Each item must have two keys: " ++ qt ++ lit "term" ++ qt
  ++ lit " (a key concept or name) and " ++ qt ++ lit "definition" ++ qt
  ++ lit " (a clear, concise explanation)." ++ nl
  ++ lit "    - Base all flashcards STRICTLY on the text provided below." ++ nl
  ++ lit "    " ++ nl
  ++ lit "    ### Provided Text ###" ++ nl
  ++ lit "    " ++ text ++ nl
  ++ lit "    ".

Definition generate_flashcards_from_text (client : option Mistral)
    (text : str) (num_cards : Z) : M (list json) :=
  match client with
  | None =>
      run print (lit "Error: Mistral client is not initialized.") ;;
      ret []
  | Some client =>
      let prompt := flashcards_prompt text num_cards in
      try_except
        (let messages :=
           [Message (lit "system") (lit "You are a helpful assistant that strictly follows instructions to generate flashcards in a JSON format.");
            Message (lit "user") prompt] in
         chat_response <-
           chat_complete client
             (ChatRequest model_name (Some (lit "json_object")) messages) ;;
         choice <- first_item (choices chat_response) ;;
         let content_str := message_content choice in
         parsed_json <- lift (json_loads content_str) ;;
         card_list <- py_get parsed_json (lit "flashcards") (JList []) ;;
         match card_list with
         | JList l => ret l
         | _ =>
             run print (lit "Error: The 'flashcards' key did not contain a list.") ;;
             ret []
         end)
        (fun e =>
           run print (lit "An unexpected error occurred with the Mistral API call: "
                  ++ exn_msg e) ;;
           ret [])
  end.

Definition flashcards_error_message : str :=
  lit "Failed to generate flashcards from the model. It might be too busy or the abstract was too complex. Please try again.".

Definition get_flashcards (client : option Mistral) (abstract : str)
    (num_cards : Z) : M response :=
  flashcards <- generate_flashcards_from_text client abstract num_cards ;;
  if is_empty flashcards then
    let error_message := flashcards_error_message in
    ret (FlashcardsPage [] (Some error_message))
  else ret (FlashcardsPage flashcards None).

(** ** The landing page and the upload handler *)

Definition get_root : M response := ret IndexPage.

(** The uploaded part: its file name, if any, and what reading it gives. *)
Record UploadFile := MkUploadFile {
  filename : option str;
  read : result (list Byte.byte)
}.

(** [f"{name}"] for an optional string. *)
Definition format_opt (name : option str) : str :=
  match name with
  | Some s => s
  | None => lit "None"
  end.

(** [open(path, 'wb')]: a directory cannot be opened; a regular file that
    is there is emptied (the files of the model are writable); a new file
    needs the right to add an entry. On success the file is there at once. *)
Definition open_wb (path : str) : M unit :=
  fun w =>
    match fs w !! path with
    | Some Dir => (Raise (Exn OSError (lit "Is a directory")), w)
    | Some (File _) => (Ok tt, set_fs (<[path := File []]> (fs w)) w)
    | None =>
        if may_create w path
        then (Ok tt, set_fs (<[path := File []]> (fs w)) w)
        else (Raise (Exn OSError (lit "Permission denied")), w)
    end.

(** [f.write(data)] and the end of the [with] block. *)
Definition write_file (path : str) (data : list Byte.byte) : M unit :=
  fun w => (Ok tt, set_fs (<[path := File data]> (fs w)) w).

Definition os_path_exists (path : str) : M bool :=
  fun w => (Ok (bool_decide (is_Some (fs w !! path))), w).

(** [os.remove(path)]: it raises on a directory, on a path where nothing
    sits, and where the process may not remove the entry. *)
Definition os_remove (path : str) : M unit :=
  fun w =>
    match fs w !! path with
    | Some (File _) =>
        if may_create w path
        then (Ok tt, set_fs (delete path (fs w)) w)
        else (Raise (Exn OSError (lit "Permission denied")), w)
    | Some Dir => (Raise (Exn OSError (lit "Is a directory")), w)
    | None => (Raise (Exn OSError (lit "No such file or directory")), w)
    end.

Definition paper_close (paper : UploadFile) : M unit := ret tt.

Definition summary_unconfigured : str :=
  lit "Mistral API client not configured. Please set MISTRAL_API_KEY in .env".

Section Upload.

(** The PDF library: the pages of a document given by its bytes, each page
    with the outcome of [get_text]; a file it cannot read raises. *)
Variable fitz_parse : list Byte.byte -> result (list (result str)).

Definition fitz_open (path : str) : M (list (result str)) :=
  fun w =>
    match fs w !! path with
    | Some (File data) => (fitz_parse data, w)
    | Some Dir => (Raise (Exn FileDataError (lit "is no file")), w)
    | None => (Raise (Exn FileDataError (lit "no such file")), w)
    end.

(** [for page in doc: full_text += page.get_text()]. *)
Fixpoint page_texts (doc : list (result str)) (full_text : str) : M str :=
  match doc with
  | [] => ret full_text
  | page :: doc' =>
      text <- lift page ;;
      page_texts doc' (full_text ++ text)
  end.

Definition upload_paper (client : option Mistral) (paper : UploadFile)
  : M response :=
  let temp_pdf_path := lit "temp_" ++ format_opt (filename paper) in
  try_finally
    (try_except
       (run open_wb temp_pdf_path ;;
        data <- lift (read paper) ;;
        run write_file temp_pdf_path data ;;
        doc <- fitz_open temp_pdf_path ;;
        full_text <- page_texts doc [] ;;
        let raw_abstract := abstract_locator full_text in
        summary <-
          match client with
          | Some client =>
              try_except
                (let messages :=
                   [Message (lit "system") (lit "You are a helpful assistant. Your task is to summarize the following academic abstract into one simple, easy-to-understand paragraph for a non-expert.");
                    Message (lit "user")
                      (lit "Please summarize this abstract:" ++ nl ++ nl
                       ++ raw_abstract)] in
                 chat_response <-
                   chat_complete client
                     (ChatRequest model_name None messages) ;;
                 choice <- first_item (choices chat_response) ;;
                 ret (message_content choice))
                (fun e => ret (Some (lit "Mistral API error: " ++ exn_msg e)))
          | None => ret (Some summary_unconfigured)
          end ;;
        ret (ResultsPage (filename paper) summary raw_abstract))
       (fun e => ret (RedirectResponse (lit "/") 303)))
    (found <- os_path_exists temp_pdf_path ;;
     run (if found then os_remove temp_pdf_path else ret tt) ;;
     paper_close paper).

End Upload.

(** ** The notions of the statements, and sample data *)

(** [sub] is read in [s] at position [k]. *)
Definition occurs_at (sub s : str) (k : nat) : Prop :=
  exists pre post : str, s = pre ++ sub ++ post /\ length pre = k.

(** [k] is the lowest position at or after [from] where [sub] is read. *)
Definition first_at_or_after (sub s : str) (from k : nat) : Prop :=
  (from <= k)%nat /\ occurs_at sub s k /\
  forall j, (from <= j)%nat -> (j < k)%nat -> ~ occurs_at sub s j.

(** Some stretch of [text] that starts at position [k] is [marker] once
    its capitals are lowered. *)
Definition occurs_ci (marker text : str) (k : nat) : Prop :=
  exists pre a post : str,
    text = pre ++ a ++ post /\ length pre = k /\ lower a = marker.

(** The request that quiz generation sends. *)
Definition quiz_request (text : str) (num_questions : Z) (difficulty : str)
  : chat_request :=
  ChatRequest model_name (Some (lit "json_object"))
    [Message (lit "system") (lit "You are a helpful assistant that strictly follows instructions to generate a quiz in a JSON format.");
     Message (lit "user") (quiz_prompt text num_questions difficulty)].

(** The request that flashcard generation sends. *)
Definition flashcards_request (text : str) (num_cards : Z) : chat_request :=
  ChatRequest model_name (Some (lit "json_object"))
    [Message (lit "system") (lit "You are a helpful assistant that strictly follows instructions to generate flashcards in a JSON format.");
     Message (lit "user") (flashcards_prompt text num_cards)].

(** The remote call succeeds, and the first choice of the answer carries
    [content_str]. *)
Definition answers (client : Mistral) (req : chat_request)
    (content_str : option str) : Prop :=
  exists resp ch rest,
    endpoint client req = Ok resp /\ choices resp = ch :: rest /\
    message_content ch = content_str.

(** The three structural failures of the response parser: the text is not
    JSON, the key is absent, the value under the key is not a sequence. *)
Definition structural_mismatch (key : str) (content_str : option str) : Prop :=
  (exists e, json_loads content_str = Raise e) \/
  (exists d, json_loads content_str = Ok (JDict d) /\
             dict_lookup d key = None) \/
  (exists d v, json_loads content_str = Ok (JDict d) /\
               dict_lookup d key = Some v /\ forall l, v <> JList l).

(** The response parser, as the specification words it: the sequence under
    the fixed key of a JSON object, and the empty sequence in every other
    case. *)
Definition parsed_entities (key : str) (content_str : option str)
  : list json :=
  match json_loads content_str with
  | Ok (JDict d) =>
      match dict_lookup d key with
      | Some (JList l) => l
      | _ => []
      end
  | _ => []
  end.

(** A client whose remote service answers every request with
    [content_str]. *)
Definition canned (content_str : str) : Mistral :=
  MkMistral (lit "test-key")
    (fun _ => Ok (ChatResponse [ChatChoice (Some content_str)])).

(** A world with no file, nothing sent and nothing printed. *)
Definition empty_world : world := World ∅ (fun _ => true) [] [].

(** Three answers of the remote service, as JSON texts: an object with
    neither of the two keys; an object whose one question has two options and
    the answer E; an object with both keys and nothing under them. *)
Definition answer_other_key : str :=
  lit "{" ++ quoted (lit "cards") ++ lit ": [1]}".

Definition answer_short_quiz : str :=
  lit "{" ++ quoted (lit "questions") ++ lit ": [{"
  ++ quoted (lit "question") ++ lit ": " ++ quoted (lit "q") ++ lit ", "
  ++ quoted (lit "options") ++ lit ": [" ++ quoted (lit "x") ++ lit ", "
  ++ quoted (lit "y") ++ lit "], "
  ++ quoted (lit "answer") ++ lit ": " ++ quoted (lit "E") ++ lit ", "
  ++ quoted (lit "explanation") ++ lit ": " ++ quoted (lit "e") ++ lit "}]}".

Definition answer_empty_lists : str :=
  lit "{" ++ quoted (lit "questions") ++ lit ": [], "
  ++ quoted (lit "flashcards") ++ lit ": []}".

(** A computation that sends nothing to the remote service. *)
Definition keeps_sent {A} (c : M A) : Prop :=
  forall w, sent (snd (c w)) = sent w.

(** Every value that a computation returns satisfies [P]. *)
Definition yields {A} (P : A -> Prop) (c : M A) : Prop :=
  forall w a, fst (c w) = Ok a -> P a.

(** A PDF library that reads nothing: every file is refused. *)
Definition fitz_refuses (data : list Byte.byte)
  : result (list (result str)) :=
  Raise (Exn FileDataError (lit "Failed to open file")).

(** A quiz entry with four options and an answer among A, B, C and D. *)
Definition valid_answer (v : json) : bool :=
  match v with
  | JStr s =>
      str_eqb s (lit "A") || str_eqb s (lit "B") || str_eqb s (lit "C")
      || str_eqb s (lit "D")
  | _ => false
  end.

Definition well_formed_question (q : json) : bool :=
  match q with
  | JDict d =>
      match dict_lookup d (lit "options"), dict_lookup d (lit "answer") with
      | Some (JList opts), Some a =>
          (length opts =? 4)%nat && valid_answer a
      | _, _ => false
      end
  | _ => false
  end.

(** [r] is a stretch of [s]. *)
Definition substring_of (r s : str) : Prop :=
  exists pre post : str, s = pre ++ r ++ post.

(** [r] neither starts nor ends with white space. *)
Definition trimmed (r : str) : Prop :=
  (forall c r', r = c :: r' -> isspace c = false) /\
  (forall r' c, r = r' ++ [c] -> isspace c = false).













Definition directory_world : world :=
  World {[lit "temp_notes.txt" := Dir]} (fun _ => true) [] [].

Definition generation_error_line (e : exn) : str :=
  lit "An unexpected error occurred with the Mistral API call: " ++ exn_msg e.

(** * Properties *)

(** ** Reading a marker in a string *)

Lemma starts_with_app (sub post : str) : starts_with sub (sub ++ post) = true.
Proof.
  induction sub as [|a sub IH]; simpl; [reflexivity|].
  rewrite N.eqb_refl. exact IH.
Qed.

Lemma starts_with_inv (sub s : str) :
  starts_with sub s = true -> exists post, s = sub ++ post.
Proof.
  revert s. induction sub as [|a sub IH]; intros s H.
  - exists s. reflexivity.
  - destruct s as [|b s]; simpl in H; [discriminate|].
    apply andb_prop in H as [Hab Hrest].
    apply N.eqb_eq in Hab. subst b.
    destruct (IH s Hrest) as [post ->].
    exists post. reflexivity.
Qed.

Lemma occurs_at_head (sub s : str) :
  occurs_at sub s 0 <-> starts_with sub s = true.
Proof.
  split.
  - intros (pre & post & -> & Hlen).
    destruct pre; [|discriminate]. simpl. apply starts_with_app.
  - intros H. destruct (starts_with_inv _ _ H) as [post ->].
    exists [], post. split; reflexivity.
Qed.

Lemma occurs_at_tail (sub : str) (c : N) (s : str) (k : nat) :
  occurs_at sub (c :: s) (S k) <-> occurs_at sub s k.
Proof.
  split.
  - intros (pre & post & Heq & Hlen).
    destruct pre as [|c' pre]; [discriminate|].
    injection Heq as -> ->. injection Hlen as Hlen.
    exists pre, post. split; [reflexivity|exact Hlen].
  - intros (pre & post & -> & Hlen).
    exists (c :: pre), post. split; [reflexivity|simpl; congruence].
Qed.

Lemma occurs_at_bound (sub s : str) (k : nat) :
  occurs_at sub s k -> (k + length sub <= length s)%nat.
Proof.
  intros (pre & post & -> & <-). rewrite !length_app. lia.
Qed.

Lemma find_from_eq (sub s : str) (i : Z) :
  find_from sub s i =
  if starts_with sub s then i
  else match s with
       | [] => -1
       | _ :: s' => find_from sub s' (i + 1)
       end.
Proof. destruct s; reflexivity. Qed.

(** What the scan returns: [-1] when the marker is read nowhere, else the
    start plus the lowest position where it is read. *)
Lemma find_from_cases (sub s : str) (i : Z) :
  (find_from sub s i = -1 /\ forall k, ~ occurs_at sub s k) \/
  (exists k, find_from sub s i = i + Z.of_nat k /\
             first_at_or_after sub s 0 k).
Proof.
  revert i. induction s as [|c s IH]; intros i; rewrite find_from_eq.
  - destruct (starts_with sub []) eqn:Hsw.
    + right. exists 0%nat. split; [lia|].
      split; [lia|]. split; [apply occurs_at_head; exact Hsw|].
      intros j _ Hj. lia.
    + left. split; [reflexivity|].
      intros k Hk. pose proof (occurs_at_bound _ _ _ Hk) as Hb. simpl in Hb.
      assert (k = 0%nat) by lia. subst k.
      apply occurs_at_head in Hk. congruence.
  - destruct (starts_with sub (c :: s)) eqn:Hsw.
    + right. exists 0%nat. split; [lia|].
      split; [lia|]. split; [apply occurs_at_head; exact Hsw|].
      intros j _ Hj. lia.
    + destruct (IH (i + 1)) as [[Hr Hnone]|(k & Hr & _ & Hocc & Hmin)].
      * left. split; [exact Hr|].
        intros [|k] Hk.
        -- apply occurs_at_head in Hk. congruence.
        -- apply occurs_at_tail in Hk. exact (Hnone k Hk).
      * right. exists (S k). split; [rewrite Hr; lia|].
        split; [lia|]. split; [apply occurs_at_tail; exact Hocc|].
        intros [|j] _ Hj Habs.
        -- apply occurs_at_head in Habs. congruence.
        -- apply occurs_at_tail in Habs. apply (Hmin j); [lia|lia|exact Habs].
Qed.

Lemma occurs_at_drop (sub s : str) (n k : nat) :
  (n <= length s)%nat ->
  occurs_at sub (drop n s) k <-> occurs_at sub s (n + k).
Proof.
  intros Hn. split.
  - intros (pre & post & Heq & Hlen).
    exists (take n s ++ pre), post. split.
    + rewrite <- (take_drop n s) at 1. rewrite Heq, <- app_assoc. reflexivity.
    + rewrite length_app, length_take. lia.
  - intros (pre & post & -> & Hlen).
    exists (drop n pre), post. split.
    + rewrite drop_app_le by lia. reflexivity.
    + rewrite length_drop. lia.
Qed.

Lemma first_at_or_after_unique (sub s : str) (from k k' : nat) :
  first_at_or_after sub s from k -> first_at_or_after sub s from k' -> k = k'.
Proof.
  intros (Hk & Ho & Hm) (Hk' & Ho' & Hm').
  destruct (Nat.lt_trichotomy k k') as [Hlt|[Heq|Hgt]]; [|exact Heq|].
  - exfalso. exact (Hm' k Hk Hlt Ho).
  - exfalso. exact (Hm k' Hk' Hgt Ho').
Qed.

(** [find] from a start inside the string. *)
Lemma find_cases (s sub : str) (st : nat) :
  (st <= length s)%nat ->
  (find s sub (Z.of_nat st) = -1 /\
   forall k, (st <= k)%nat -> ~ occurs_at sub s k) \/
  (exists k, find s sub (Z.of_nat st) = Z.of_nat k /\
             first_at_or_after sub s st k).
Proof.
  intros Hst. unfold find.
  destruct (Z.ltb_spec (Z.of_nat st) 0) as [Hneg|_]; [lia|].
  destruct (Z.ltb_spec (len s) (Z.of_nat st)) as [Hbig|_];
    [unfold len in Hbig; lia|].
  rewrite Nat2Z.id.
  destruct (find_from_cases sub (drop st s) (Z.of_nat st))
    as [[Hr Hnone]|(k & Hr & _ & Hocc & Hmin)].
  - left. split; [exact Hr|].
    intros k Hk Habs. apply (Hnone (k - st)%nat).
    apply occurs_at_drop; [exact Hst|].
    replace (st + (k - st))%nat with k by lia. exact Habs.
  - right. exists (st + k)%nat. split; [rewrite Hr; lia|].
    split; [lia|]. split; [apply occurs_at_drop; assumption|].
    intros j Hj Hjk Habs. apply (Hmin (j - st)%nat); [lia|lia|].
    apply occurs_at_drop; [exact Hst|].
    replace (st + (j - st))%nat with j by lia. exact Habs.
Qed.

Lemma find_none (s sub : str) (st : nat) :
  (st <= length s)%nat ->
  (forall k, (st <= k)%nat -> ~ occurs_at sub s k) ->
  find s sub (Z.of_nat st) = -1.
Proof.
  intros Hst Hnone.
  destruct (find_cases s sub st Hst) as [[Hr _]|(k & _ & Hk & Hocc & _)].
  - exact Hr.
  - exfalso. exact (Hnone k Hk Hocc).
Qed.

Lemma find_first (s sub : str) (st k : nat) :
  first_at_or_after sub s st k ->
  find s sub (Z.of_nat st) = Z.of_nat k.
Proof.
  intros Hfirst.
  assert (Hst : (st <= length s)%nat).
  { destruct Hfirst as (Hk & Hocc & _).
    apply occurs_at_bound in Hocc. lia. }
  destruct (find_cases s sub st Hst) as [[_ Hnone]|(k' & Hr & Hfirst')].
  - exfalso. destruct Hfirst as (Hk & Hocc & _). exact (Hnone k Hk Hocc).
  - rewrite Hr. f_equal. eapply first_at_or_after_unique; eassumption.
Qed.

Lemma no_occurrence_of_find (s sub : str) :
  find s sub 0 = -1 -> forall k, ~ occurs_at sub s k.
Proof.
  intros Hf k Hocc.
  destruct (find_cases s sub 0 ltac:(lia)) as [[_ Hnone]|(k' & Hr & _)].
  - exact (Hnone k ltac:(lia) Hocc).
  - change (Z.of_nat 0) with 0 in Hr. lia.
Qed.

(** ** Slices and trimming *)

Lemma length_lstrip (s : str) : (length (lstrip s) <= length s)%nat.
Proof.
  induction s as [|c s IH]; simpl; [lia|].
  destruct (isspace c); simpl; lia.
Qed.

Lemma length_strip (s : str) : (length (strip s) <= length s)%nat.
Proof.
  unfold strip, rstrip. rewrite length_rev.
  etransitivity; [apply length_lstrip|].
  rewrite length_rev. apply length_lstrip.
Qed.

Lemma len_slice (s : str) (lo hi : Z) :
  0 <= lo -> lo <= hi -> len (slice s lo hi) <= hi - lo.
Proof.
  intros Hlo Hhi. unfold slice, clip, len.
  destruct (Z.ltb_spec lo 0) as [?|_]; [lia|].
  destruct (Z.ltb_spec hi 0) as [?|_]; [lia|].
  rewrite length_take. lia.
Qed.

Lemma slice_middle (pre mid post : str) :
  slice (pre ++ mid ++ post) (len pre) (len pre + len mid) = mid.
Proof.
  unfold slice.
  assert (Hlo : clip (len (pre ++ mid ++ post)) (len pre) = len pre).
  { unfold clip, len. rewrite !length_app.
    destruct (Z.ltb_spec (Z.of_nat (length pre)) 0); lia. }
  assert (Hhi : clip (len (pre ++ mid ++ post)) (len pre + len mid)
                = len pre + len mid).
  { unfold clip, len. rewrite !length_app.
    destruct (Z.ltb_spec (Z.of_nat (length pre) + Z.of_nat (length mid)) 0);
      lia. }
  rewrite Hlo, Hhi. unfold len.
  replace (Z.to_nat (Z.of_nat (length pre) + Z.of_nat (length mid)
                     - Z.of_nat (length pre)))
    with (length mid) by lia.
  rewrite Nat2Z.id, drop_app_length. apply take_app_length.
Qed.

(** ** The three ways out of the locator *)

Lemma locator_without_abstract (full_text : str) :
  (forall k, ~ occurs_at start_marker (lower full_text) k) ->
  locate_try full_text = Ok sentinel.
Proof.
  intros Hnone. unfold locate_try.
  change 0 with (Z.of_nat 0).
  rewrite (find_none (lower full_text) start_marker 0);
    [reflexivity|lia|intros k _; apply Hnone].
Qed.

Lemma locator_abstract_only (full_text : str) (p : nat) :
  first_at_or_after start_marker (lower full_text) 0 p ->
  (forall q, (p <= q)%nat -> ~ occurs_at end_marker (lower full_text) q) ->
  locate_try full_text =
  Ok (strip (slice full_text (Z.of_nat p + 8) (Z.of_nat p + 3000))).
Proof.
  intros Hp Hnone. unfold locate_try.
  change 0 with (Z.of_nat 0).
  rewrite (find_first _ _ _ _ Hp).
  rewrite (find_none (lower full_text) end_marker p).
  - destruct (Z.eqb_spec (Z.of_nat p) (-1)) as [?|_]; [lia|]. reflexivity.
  - destruct Hp as (_ & Hocc & _). apply occurs_at_bound in Hocc. lia.
  - exact Hnone.
Qed.

Lemma locator_both_markers (full_text : str) (p q : nat) :
  first_at_or_after start_marker (lower full_text) 0 p ->
  first_at_or_after end_marker (lower full_text) p q ->
  locate_try full_text =
  Ok (strip (slice full_text (Z.of_nat p + 8) (Z.of_nat q))).
Proof.
  intros Hp Hq. unfold locate_try.
  change 0 with (Z.of_nat 0).
  rewrite (find_first _ _ _ _ Hp), (find_first _ _ _ _ Hq).
  destruct (Z.eqb_spec (Z.of_nat p) (-1)) as [?|_]; [lia|].
  destruct (Z.eqb_spec (Z.of_nat q) (-1)) as [?|_]; [lia|].
  reflexivity.
Qed.

(** C8: a text in which "abstract" is read nowhere, whatever the case of its
    letters, gets the fixed sentinel "Could not automatically find
    abstract." as its abstract. *)
Theorem C8_no_abstract_gives_sentinel (full_text : str) :
  (forall k, ~ occurs_at start_marker (lower full_text) k) ->
  abstract_locator full_text = sentinel.
Proof.
  intros Hnone. unfold abstract_locator.
  rewrite (locator_without_abstract _ Hnone). reflexivity.
Qed.

Lemma C8_witness :
  (forall k, ~ occurs_at start_marker
               (lower (lit "A Study of Cats. INTRODUCTION Cats sleep.")) k) /\
  abstract_locator (lit "A Study of Cats. INTRODUCTION Cats sleep.")
  = lit "Could not automatically find abstract.".
Proof.
  split.
  - apply no_occurrence_of_find. vm_compute. reflexivity.
  - apply (C8_no_abstract_gives_sentinel
             (lit "A Study of Cats. INTRODUCTION Cats sleep.")).
    apply no_occurrence_of_find. vm_compute. reflexivity.
Defined.

(** C3, as it is written, fails: the text "Deep nets for cats." holds
    neither marker, and its abstract is the sentinel, not the text. *)
Lemma C3_counterexample :
  let full_text := lit "Deep nets for cats." in
  (forall k, ~ occurs_at start_marker (lower full_text) k) /\
  (forall k, ~ occurs_at end_marker (lower full_text) k) /\
  slice_to full_text 3000 = full_text /\
  abstract_locator full_text = sentinel /\
  abstract_locator full_text <> slice_to full_text 3000.
Proof.
  cbv zeta. split; [|split; [|split; [|split]]].
  - apply no_occurrence_of_find. vm_compute. reflexivity.
  - apply no_occurrence_of_find. vm_compute. reflexivity.
  - vm_compute. reflexivity.
  - vm_compute. reflexivity.
  - vm_compute. discriminate.
Qed.

(** C3, amended: a text in which neither "abstract" nor "introduction" is
    read, whatever the case of their letters, gets the fixed sentinel
    "Could not automatically find abstract." as its abstract. *)
Theorem C3_neither_marker_gives_sentinel (full_text : str) :
  (forall k, ~ occurs_at start_marker (lower full_text) k) ->
  (forall k, ~ occurs_at end_marker (lower full_text) k) ->
  abstract_locator full_text = lit "Could not automatically find abstract.".
Proof.
  intros Hstart _. unfold abstract_locator.
  rewrite (locator_without_abstract _ Hstart). reflexivity.
Qed.

Lemma C3_witness :
  (forall k, ~ occurs_at start_marker (lower (lit "Deep nets for cats.")) k) /\
  (forall k, ~ occurs_at end_marker (lower (lit "Deep nets for cats.")) k) /\
  abstract_locator (lit "Deep nets for cats.")
  = lit "Could not automatically find abstract.".
Proof.
  split; [|split].
  - apply no_occurrence_of_find. vm_compute. reflexivity.
  - apply no_occurrence_of_find. vm_compute. reflexivity.
  - apply (C3_neither_marker_gives_sentinel (lit "Deep nets for cats."));
      apply no_occurrence_of_find; vm_compute; reflexivity.
Defined.

(** C9 at the text of C1, with U+0130 before the first marker. The search
    for the markers returns and the [except] branch is not taken, but the
    abstract "hello I" is none of the three values the property names: it is
    not the sentinel, not the trimmed text " hello " between the markers,
    and not the trimmed text " hello Introduction" after the first marker.
    It is the text cut at the positions found in the lowered text, which is
    one code point longer. *)
Theorem C9_shifted_slice_is_none_of_the_three :
  let pre := [304; 32]%N in
  let a := lit "Abstract" in
  let mid := lit " hello " in
  let i := lit "Introduction" in
  let full_text := pre ++ a ++ mid ++ i in
  lower a = start_marker /\
  lower i = end_marker /\
  locate_try full_text = Ok (lit "hello I") /\
  abstract_locator full_text = lit "hello I" /\
  abstract_locator full_text <> sentinel /\
  abstract_locator full_text <> strip mid /\
  abstract_locator full_text <> strip (mid ++ i) /\
  abstract_locator full_text <> strip (slice_to (mid ++ i) 3000).
Proof.
  cbv zeta.
  repeat split; try (vm_compute; reflexivity); vm_compute; discriminate.
Qed.

(** C4, as it is written, fails: with 3001 letters between the two markers
    the abstract has 3001 characters. *)
Lemma C4_counterexample :
  let full_text :=
    lit "abstract" ++ repeat 120%N 3001 ++ lit "introduction" in
  abstract_locator full_text = repeat 120%N 3001 /\
  3000 < len (abstract_locator full_text).
Proof.
  cbv zeta. split.
  - vm_compute. reflexivity.
  - vm_compute. reflexivity.
Qed.

(** C4, amended: when no "introduction" is read at or after the first
    "abstract" of the text, and so also when no "abstract" is read at all,
    the abstract has at most 3000 characters. (No bound is stated for a
    text in which both markers are found.) *)
Theorem C4_bound_without_later_introduction (full_text : str) :
  (forall p q : nat,
     first_at_or_after start_marker (lower full_text) 0 p ->
     (p <= q)%nat -> ~ occurs_at end_marker (lower full_text) q) ->
  len (abstract_locator full_text) <= 3000.
Proof.
  intros Hno. unfold abstract_locator.
  destruct (find_cases (lower full_text) start_marker 0 ltac:(lia))
    as [[_ Hnone]|(p & _ & Hp)].
  - rewrite locator_without_abstract.
    + vm_compute. discriminate.
    + intros k. apply Hnone. lia.
  - rewrite (locator_abstract_only _ p Hp (fun q => Hno p q Hp)).
    pose proof (length_strip
      (slice full_text (Z.of_nat p + 8) (Z.of_nat p + 3000))) as Hs.
    pose proof (len_slice full_text (Z.of_nat p + 8) (Z.of_nat p + 3000)
                  ltac:(lia) ltac:(lia)) as Hl.
    unfold len in *. lia.
Qed.

Lemma C4_witness :
  (forall p q : nat,
     first_at_or_after start_marker
       (lower (lit "Abstract: cats sleep a lot. Keywords: cats")) 0 p ->
     (p <= q)%nat ->
     ~ occurs_at end_marker
         (lower (lit "Abstract: cats sleep a lot. Keywords: cats")) q) /\
  len (abstract_locator (lit "Abstract: cats sleep a lot. Keywords: cats"))
  <= 3000.
Proof.
  split.
  - intros p q _ _. apply no_occurrence_of_find. vm_compute. reflexivity.
  - apply (C4_bound_without_later_introduction
             (lit "Abstract: cats sleep a lot. Keywords: cats")).
    intros p q _ _. apply no_occurrence_of_find. vm_compute. reflexivity.
Defined.

(** ** Lower-casing and positions *)

Lemma lower_app (s t : str) : lower (s ++ t) = lower s ++ lower t.
Proof. unfold lower. apply flat_map_app. Qed.

Lemma length_lower_char (c : N) :
  c <> 304%N -> length (lower_char c) = 1%nat.
Proof.
  intros Hc. unfold lower_char.
  destruct ((65 <=? c)%N && (c <=? 90)%N); [reflexivity|].
  destruct (N.eqb_spec c 304); [contradiction|].
  destruct (c =? 8490)%N; reflexivity.
Qed.

Lemma length_lower (s : str) :
  304%N ∉ s -> length (lower s) = length s.
Proof.
  induction s as [|c s IH]; intros Hs; [reflexivity|].
  change (lower (c :: s)) with (lower_char c ++ lower s).
  rewrite length_app, length_lower_char, IH; [reflexivity| |].
  - intros Hin. apply Hs. right. exact Hin.
  - intros ->. apply Hs. left.
Qed.

Lemma dot_above_in_lower (s : str) : 304%N ∈ s -> 775%N ∈ lower s.
Proof.
  induction s as [|c s IH]; intros Hin; [inversion Hin|].
  change (lower (c :: s)) with (lower_char c ++ lower s).
  apply elem_of_app.
  apply elem_of_cons in Hin as [<-|Hin].
  - left. vm_compute. right. left.
  - right. apply IH. exact Hin.
Qed.

Lemma lowered_marker_length (a marker : str) :
  lower a = marker -> 775%N ∉ marker -> length a = length marker.
Proof.
  intros <- Hdot. symmetry. apply length_lower.
  intros Hin. apply Hdot. apply dot_above_in_lower. exact Hin.
Qed.

Lemma start_marker_plain : 775%N ∉ start_marker.
Proof.
  intros H. apply list_elem_of_In in H. vm_compute in H.
  intuition discriminate.
Qed.

Lemma end_marker_plain : 775%N ∉ end_marker.
Proof.
  intros H. apply list_elem_of_In in H. vm_compute in H.
  intuition discriminate.
Qed.

(** On a text with no U+0130 up to the second marker, the positions of the
    lowered text are those of the text, and the locator returns the trimmed
    text between the first "abstract" and the first "introduction" after
    it. *)
Lemma locator_between_markers (pre a mid i post : str) :
  let full_text := pre ++ a ++ mid ++ i ++ post in
  lower a = start_marker ->
  lower i = end_marker ->
  304%N ∉ pre ->
  304%N ∉ mid ->
  (forall j, (j < length pre)%nat ->
             ~ occurs_at start_marker (lower full_text) j) ->
  (forall j, (length pre <= j)%nat -> (j < length pre + 8 + length mid)%nat ->
             ~ occurs_at end_marker (lower full_text) j) ->
  abstract_locator full_text = strip mid.
Proof.
  intros full_text Ha Hi Hpre Hmid Hfirst Hlater.
  assert (Hla : length a = 8%nat)
    by exact (lowered_marker_length a start_marker Ha start_marker_plain).
  assert (Hlow : lower full_text
                 = lower pre ++ start_marker ++ lower mid ++ end_marker
                   ++ lower post).
  { unfold full_text. rewrite !lower_app, Ha, Hi. reflexivity. }
  assert (Hp : first_at_or_after start_marker (lower full_text) 0
                 (length pre)).
  { split; [lia|]. split.
    - exists (lower pre), (lower mid ++ end_marker ++ lower post).
      split; [exact Hlow|apply length_lower; exact Hpre].
    - intros j _ Hj. apply Hfirst. exact Hj. }
  assert (Hq : first_at_or_after end_marker (lower full_text) (length pre)
                 (length pre + 8 + length mid)).
  { split; [lia|]. split.
    - exists (lower pre ++ start_marker ++ lower mid), (lower post). split.
      + rewrite Hlow, <- !app_assoc. reflexivity.
      + rewrite !length_app, !length_lower by assumption.
        change (length start_marker) with 8%nat. lia.
    - exact Hlater. }
  unfold abstract_locator. rewrite (locator_both_markers _ _ _ Hp Hq).
  f_equal.
  replace (Z.of_nat (length pre) + 8) with (len (pre ++ a))
    by (unfold len; rewrite length_app; lia).
  replace (Z.of_nat (length pre + 8 + length mid))
    with (len (pre ++ a) + len mid)
    by (unfold len; rewrite length_app; lia).
  unfold full_text.
  replace (pre ++ a ++ mid ++ i ++ post)
    with ((pre ++ a) ++ mid ++ (i ++ post))
    by (rewrite <- !app_assoc; reflexivity).
  apply slice_middle.
Qed.

Example locator_example :
  abstract_locator (lit "Abstract. We present X. Introduction. Prior work...")
  = lit ". We present X.".
Proof. vm_compute. reflexivity. Qed.

Lemma occurs_ci_window (marker text : str) (k : nat) :
  occurs_ci marker text k ->
  775%N ∉ marker ->
  (k + length marker <= length text)%nat /\
  lower (take (length marker) (drop k text)) = marker.
Proof.
  intros (pre & a & post & -> & <- & Hlow) Hdot.
  rewrite <- (lowered_marker_length a marker Hlow Hdot).
  split.
  - rewrite !length_app. lia.
  - rewrite drop_app_length, take_app_length. exact Hlow.
Qed.

(** C1 at a text with U+0130 before the first marker. "Abstract" is read
    only at position 2 and "Introduction" only at position 17, with " hello "
    between them; lowering the text makes it one code point longer, the
    positions found in the lowered text are 3 and 18, and cutting the text
    itself at these gives "hello I" instead of "hello". *)
Theorem C1_dotted_capital_shifts_the_slice :
  let pre := [304; 32]%N in
  let a := lit "Abstract" in
  let mid := lit " hello " in
  let i := lit "Introduction" in
  let full_text := pre ++ a ++ mid ++ i in
  lower a = start_marker /\
  lower i = end_marker /\
  (forall k, occurs_ci start_marker full_text k -> k = length pre) /\
  (forall k, occurs_ci end_marker full_text k ->
             k = length (pre ++ a ++ mid)) /\
  len (lower full_text) = len full_text + 1 /\
  find (lower full_text) start_marker 0 = 3 /\
  find (lower full_text) end_marker 3 = 18 /\
  strip mid = lit "hello" /\
  abstract_locator full_text = lit "hello I" /\
  abstract_locator full_text <> strip mid.
Proof.
  cbv zeta.
  split; [vm_compute; reflexivity|].
  split; [vm_compute; reflexivity|].
  split.
  { intros k Hk.
    apply occurs_ci_window in Hk as [Hb Hw]; [|exact start_marker_plain].
    do 22 (destruct k as [|k];
           [vm_compute in Hw; try discriminate Hw; try reflexivity|]).
    cbn in Hb. lia. }
  split.
  { intros k Hk.
    apply occurs_ci_window in Hk as [Hb Hw]; [|exact end_marker_plain].
    do 18 (destruct k as [|k];
           [vm_compute in Hw; try discriminate Hw; try reflexivity|]).
    cbn in Hb. lia. }
  repeat split; try (vm_compute; reflexivity).
  vm_compute. discriminate.
Qed.

(** ** Generation and the response parser *)

Arguments lit : simpl never.

Ltac split_matches :=
  repeat (simpl;
          match goal with
          | |- context [match ?x with _ => _ end] => destruct x
          end);
  simpl.

Lemma generate_quiz_returns (client : option Mistral) (text : str)
    (num_questions : Z) (difficulty : str) (w : world) :
  exists l, fst (generate_quiz_from_text client text num_questions
                   difficulty w) = Ok l.
Proof.
  unfold generate_quiz_from_text, try_except, bind, chat_complete, first_item,
    lift, py_get, print, ret, raise.
  split_matches; eauto.
Qed.

Lemma generate_flashcards_returns (client : option Mistral) (text : str)
    (num_cards : Z) (w : world) :
  exists l, fst (generate_flashcards_from_text client text num_cards w) = Ok l.
Proof.
  unfold generate_flashcards_from_text, try_except, bind, chat_complete,
    first_item, lift, py_get, print, ret, raise.
  split_matches; eauto.
Qed.

(** With an answer from the remote service, quiz generation returns what the
    response parser of the specification returns. *)
Lemma generate_quiz_answered (client : Mistral) (text : str)
    (num_questions : Z) (difficulty : str) (w : world)
    (content_str : option str) :
  answers client (quiz_request text num_questions difficulty) content_str ->
  fst (generate_quiz_from_text (Some client) text num_questions difficulty w)
  = Ok (parsed_entities (lit "questions") content_str).
Proof.
  intros (resp & ch & rest & He & Hc & Hm). unfold quiz_request in He.
  unfold generate_quiz_from_text, try_except, bind, chat_complete, first_item,
    lift, py_get, print, ret, raise, parsed_entities.
  simpl. rewrite He. simpl. rewrite Hc. simpl. rewrite Hm.
  destruct (json_loads content_str) as [v|e]; simpl; [|reflexivity].
  destruct v; simpl; try reflexivity.
  destruct (dict_lookup items (lit "questions")) as [x|]; simpl;
    [destruct x|]; reflexivity.
Qed.

Lemma generate_flashcards_answered (client : Mistral) (text : str)
    (num_cards : Z) (w : world) (content_str : option str) :
  answers client (flashcards_request text num_cards) content_str ->
  fst (generate_flashcards_from_text (Some client) text num_cards w)
  = Ok (parsed_entities (lit "flashcards") content_str).
Proof.
  intros (resp & ch & rest & He & Hc & Hm). unfold flashcards_request in He.
  unfold generate_flashcards_from_text, try_except, bind, chat_complete,
    first_item, lift, py_get, print, ret, raise, parsed_entities.
  simpl. rewrite He. simpl. rewrite Hc. simpl. rewrite Hm.
  destruct (json_loads content_str) as [v|e]; simpl; [|reflexivity].
  destruct v; simpl; try reflexivity.
  destruct (dict_lookup items (lit "flashcards")) as [x|]; simpl;
    [destruct x|]; reflexivity.
Qed.

Lemma get_quiz_view (client : option Mistral) (abstract difficulty : str)
    (num_questions : Z) (w : world) (l : list json) :
  fst (generate_quiz_from_text client abstract num_questions difficulty w)
  = Ok l ->
  fst (get_quiz_questions client abstract difficulty num_questions w)
  = Ok (if is_empty l then QuizPage [] (Some quiz_error_message)
        else QuizPage l None).
Proof.
  intros H. unfold get_quiz_questions, bind.
  destruct (generate_quiz_from_text client abstract num_questions difficulty w)
    as [[l'|e] w']; simpl in H; [|discriminate].
  injection H as ->. destruct l; reflexivity.
Qed.

Lemma get_flashcards_view (client : option Mistral) (abstract : str)
    (num_cards : Z) (w : world) (l : list json) :
  fst (generate_flashcards_from_text client abstract num_cards w) = Ok l ->
  fst (get_flashcards client abstract num_cards w)
  = Ok (if is_empty l then FlashcardsPage [] (Some flashcards_error_message)
        else FlashcardsPage l None).
Proof.
  intros H. unfold get_flashcards, bind.
  destruct (generate_flashcards_from_text client abstract num_cards w)
    as [[l'|e] w']; simpl in H; [|discriminate].
  injection H as ->. destruct l; reflexivity.
Qed.

Lemma mismatch_parses_empty (key : str) (content_str : option str) :
  structural_mismatch key content_str -> parsed_entities key content_str = [].
Proof.
  unfold parsed_entities.
  intros [(e & ->)|[(d & -> & ->)|(d & v & -> & -> & Hv)]];
    [reflexivity|reflexivity|].
  destruct v; try reflexivity. exfalso. exact (Hv items eq_refl).
Qed.

Lemma canned_answers (content_str : str) (req : chat_request) :
  answers (canned content_str) req (Some content_str).
Proof.
  exists (ChatResponse [ChatChoice (Some content_str)]),
    (ChatChoice (Some content_str)), [].
  repeat split.
Qed.

(** C5: whatever the remote service does, the two generation routines
    return a sequence and raise nothing; and when the answer text is not
    JSON, or lacks the fixed key, or holds something else than a sequence
    under it, they return the empty sequence and the handler shows the empty
    sequence with an error message. *)
Theorem C5_structural_failures_give_empty
    (client : option Mistral) (abstract difficulty : str)
    (num_questions num_cards : Z) (w : world) :
  (exists l, fst (generate_quiz_from_text client abstract num_questions
                    difficulty w) = Ok l) /\
  (exists l, fst (generate_flashcards_from_text client abstract num_cards w)
             = Ok l) /\
  (forall c content_str,
     client = Some c ->
     answers c (quiz_request abstract num_questions difficulty) content_str ->
     structural_mismatch (lit "questions") content_str ->
     fst (generate_quiz_from_text client abstract num_questions difficulty w)
     = Ok [] /\
     fst (get_quiz_questions client abstract difficulty num_questions w)
     = Ok (QuizPage [] (Some quiz_error_message))) /\
  (forall c content_str,
     client = Some c ->
     answers c (flashcards_request abstract num_cards) content_str ->
     structural_mismatch (lit "flashcards") content_str ->
     fst (generate_flashcards_from_text client abstract num_cards w) = Ok [] /\
     fst (get_flashcards client abstract num_cards w)
     = Ok (FlashcardsPage [] (Some flashcards_error_message))).
Proof.
  split; [apply generate_quiz_returns|].
  split; [apply generate_flashcards_returns|].
  split.
  - intros c content_str -> Hans Hbad.
    pose proof (generate_quiz_answered c abstract num_questions difficulty w
                  content_str Hans) as Hgen.
    rewrite (mismatch_parses_empty _ _ Hbad) in Hgen.
    split; [exact Hgen|]. exact (get_quiz_view _ _ _ _ _ _ Hgen).
  - intros c content_str -> Hans Hbad.
    pose proof (generate_flashcards_answered c abstract num_cards w
                  content_str Hans) as Hgen.
    rewrite (mismatch_parses_empty _ _ Hbad) in Hgen.
    split; [exact Hgen|]. exact (get_flashcards_view _ _ _ _ _ Hgen).
Qed.

Lemma other_key_mismatch (key : str) :
  key <> lit "cards" -> structural_mismatch key (Some answer_other_key).
Proof.
  intros Hkey. right. left. exists [(lit "cards", JList [JInt 1])].
  split; [vm_compute; reflexivity|].
  simpl. unfold str_eqb. rewrite bool_decide_eq_false_2; [reflexivity|].
  intros Heq. apply Hkey. symmetry. exact Heq.
Qed.

Lemma C5_witness :
  let client := Some (canned answer_other_key) in
  let abstract := lit "Cats sleep a lot." in
  (fst (generate_quiz_from_text client abstract 3 (lit "easy") empty_world)
   = Ok [] /\
   fst (get_quiz_questions client abstract (lit "easy") 3 empty_world)
   = Ok (QuizPage [] (Some quiz_error_message))) /\
  (fst (generate_flashcards_from_text client abstract 5 empty_world) = Ok [] /\
   fst (get_flashcards client abstract 5 empty_world)
   = Ok (FlashcardsPage [] (Some flashcards_error_message))).
Proof.
  cbv zeta.
  destruct (C5_structural_failures_give_empty
              (Some (canned answer_other_key)) (lit "Cats sleep a lot.")
              (lit "easy") 3 5 empty_world) as (_ & _ & Hquiz & Hcards).
  split.
  - apply (Hquiz (canned answer_other_key) (Some answer_other_key));
      [reflexivity|apply canned_answers|].
    apply other_key_mismatch. vm_compute. discriminate.
  - apply (Hcards (canned answer_other_key) (Some answer_other_key));
      [reflexivity|apply canned_answers|].
    apply other_key_mismatch. vm_compute. discriminate.
Defined.

(** C2, as it is written, fails: three questions are asked for, the remote
    call succeeds with a JSON text that holds one question with two options
    and the answer E, and that one entry is what quiz generation returns and
    what the handler shows. *)
Lemma C2_counterexample :
  let client := Some (canned answer_short_quiz) in
  let abstract := lit "Cats sleep a lot." in
  let q := JDict [(lit "question", JStr (lit "q"));
                  (lit "options", JList [JStr (lit "x"); JStr (lit "y")]);
                  (lit "answer", JStr (lit "E"));
                  (lit "explanation", JStr (lit "e"))] in
  answers (canned answer_short_quiz) (quiz_request abstract 3 (lit "easy"))
    (Some answer_short_quiz) /\
  json_loads (Some answer_short_quiz) = Ok (JDict [(lit "questions", JList [q])]) /\
  fst (generate_quiz_from_text client abstract 3 (lit "easy") empty_world)
  = Ok [q] /\
  len [q] <> 3 /\
  well_formed_question q = false /\
  fst (get_quiz_questions client abstract (lit "easy") 3 empty_world)
  = Ok (QuizPage [q] None).
Proof.
  cbv zeta. split; [apply canned_answers|].
  repeat split; try (vm_compute; reflexivity).
  vm_compute. discriminate.
Qed.

(** C2, amended: for a request with 1 <= N <= 5, when the remote call
    succeeds and its text is a JSON object with a sequence under "questions",
    quiz generation returns that sequence as it came, whatever its length
    and the shape of its entries, and the handler shows it as it came when
    it is not empty. *)
Theorem C2_quiz_returns_remote_sequence
    (client : Mistral) (abstract difficulty : str) (num_questions : Z)
    (w : world) (content_str : option str) (d : list (str * json))
    (l : list json) :
  1 <= num_questions <= 5 ->
  answers client (quiz_request abstract num_questions difficulty) content_str ->
  json_loads content_str = Ok (JDict d) ->
  dict_lookup d (lit "questions") = Some (JList l) ->
  fst (generate_quiz_from_text (Some client) abstract num_questions
         difficulty w) = Ok l /\
  (l <> [] ->
   fst (get_quiz_questions (Some client) abstract difficulty num_questions w)
   = Ok (QuizPage l None)).
Proof.
  intros _ Hans Hjson Hkey.
  pose proof (generate_quiz_answered client abstract num_questions difficulty
                w content_str Hans) as Hgen.
  unfold parsed_entities in Hgen. rewrite Hjson, Hkey in Hgen.
  split; [exact Hgen|].
  intros Hne. rewrite (get_quiz_view _ _ _ _ _ _ Hgen).
  destruct l; [contradiction|reflexivity].
Qed.

Lemma C2_witness :
  let q := JDict [(lit "question", JStr (lit "q"));
                  (lit "options", JList [JStr (lit "x"); JStr (lit "y")]);
                  (lit "answer", JStr (lit "E"));
                  (lit "explanation", JStr (lit "e"))] in
  1 <= 3 <= 5 /\
  fst (generate_quiz_from_text (Some (canned answer_short_quiz))
         (lit "Cats sleep a lot.") 3 (lit "easy") empty_world) = Ok [q] /\
  fst (get_quiz_questions (Some (canned answer_short_quiz))
         (lit "Cats sleep a lot.") (lit "easy") 3 empty_world)
  = Ok (QuizPage [q] None).
Proof.
  cbv zeta. split; [lia|].
  destruct (C2_quiz_returns_remote_sequence (canned answer_short_quiz)
              (lit "Cats sleep a lot.") (lit "easy") 3 empty_world
              (Some answer_short_quiz)
              [(lit "questions",
                JList [JDict [(lit "question", JStr (lit "q"));
                              (lit "options",
                               JList [JStr (lit "x"); JStr (lit "y")]);
                              (lit "answer", JStr (lit "E"));
                              (lit "explanation", JStr (lit "e"))]])]
              [JDict [(lit "question", JStr (lit "q"));
                      (lit "options", JList [JStr (lit "x"); JStr (lit "y")]);
                      (lit "answer", JStr (lit "E"));
                      (lit "explanation", JStr (lit "e"))]])
    as [Hgen Hview].
  - lia.
  - apply canned_answers.
  - vm_compute. reflexivity.
  - vm_compute. reflexivity.
  - split; [exact Hgen|]. apply Hview. discriminate.
Defined.

(** C10: the quiz view and the flashcard view carry an error message
    exactly when the sequence they show is empty; so a remote answer that is
    a well-formed JSON object with an empty sequence under the key is shown
    as a failure of the generation. *)
Theorem C10_error_iff_empty
    (client : option Mistral) (abstract difficulty : str)
    (num_questions num_cards : Z) (w : world) :
  (exists questions error,
     fst (get_quiz_questions client abstract difficulty num_questions w)
     = Ok (QuizPage questions error) /\
     (error <> None <-> questions = [])) /\
  (exists flashcards error,
     fst (get_flashcards client abstract num_cards w)
     = Ok (FlashcardsPage flashcards error) /\
     (error <> None <-> flashcards = [])) /\
  (forall c content_str d,
     client = Some c ->
     answers c (quiz_request abstract num_questions difficulty) content_str ->
     json_loads content_str = Ok (JDict d) ->
     dict_lookup d (lit "questions") = Some (JList []) ->
     fst (get_quiz_questions client abstract difficulty num_questions w)
     = Ok (QuizPage [] (Some quiz_error_message))) /\
  (forall c content_str d,
     client = Some c ->
     answers c (flashcards_request abstract num_cards) content_str ->
     json_loads content_str = Ok (JDict d) ->
     dict_lookup d (lit "flashcards") = Some (JList []) ->
     fst (get_flashcards client abstract num_cards w)
     = Ok (FlashcardsPage [] (Some flashcards_error_message))).
Proof.
  split; [|split; [|split]].
  - destruct (generate_quiz_returns client abstract num_questions difficulty w)
      as [l Hgen].
    rewrite (get_quiz_view _ _ _ _ _ _ Hgen).
    destruct l as [|q l]; simpl.
    + exists [], (Some quiz_error_message). split; [reflexivity|].
      split; [reflexivity|discriminate].
    + exists (q :: l), None. split; [reflexivity|].
      split; [contradiction|discriminate].
  - destruct (generate_flashcards_returns client abstract num_cards w)
      as [l Hgen].
    rewrite (get_flashcards_view _ _ _ _ _ Hgen).
    destruct l as [|q l]; simpl.
    + exists [], (Some flashcards_error_message). split; [reflexivity|].
      split; [reflexivity|discriminate].
    + exists (q :: l), None. split; [reflexivity|].
      split; [contradiction|discriminate].
  - intros c content_str d -> Hans Hjson Hkey.
    pose proof (generate_quiz_answered c abstract num_questions difficulty w
                  content_str Hans) as Hgen.
    unfold parsed_entities in Hgen. rewrite Hjson, Hkey in Hgen.
    exact (get_quiz_view _ _ _ _ _ _ Hgen).
  - intros c content_str d -> Hans Hjson Hkey.
    pose proof (generate_flashcards_answered c abstract num_cards w
                  content_str Hans) as Hgen.
    unfold parsed_entities in Hgen. rewrite Hjson, Hkey in Hgen.
    exact (get_flashcards_view _ _ _ _ _ Hgen).
Qed.

Lemma C10_witness :
  let client := Some (canned answer_empty_lists) in
  let abstract := lit "Cats sleep a lot." in
  json_loads (Some answer_empty_lists)
  = Ok (JDict [(lit "questions", JList []); (lit "flashcards", JList [])]) /\
  fst (get_quiz_questions client abstract (lit "hard") 2 empty_world)
  = Ok (QuizPage [] (Some quiz_error_message)) /\
  fst (get_flashcards client abstract 4 empty_world)
  = Ok (FlashcardsPage [] (Some flashcards_error_message)).
Proof.
  cbv zeta.
  destruct (C10_error_iff_empty (Some (canned answer_empty_lists))
              (lit "Cats sleep a lot.") (lit "hard") 2 4 empty_world)
    as (_ & _ & Hquiz & Hcards).
  split; [vm_compute; reflexivity|]. split.
  - apply (Hquiz (canned answer_empty_lists) (Some answer_empty_lists)
             [(lit "questions", JList []); (lit "flashcards", JList [])]);
      [reflexivity|apply canned_answers|vm_compute; reflexivity
      |vm_compute; reflexivity].
  - apply (Hcards (canned answer_empty_lists) (Some answer_empty_lists)
             [(lit "questions", JList []); (lit "flashcards", JList [])]);
      [reflexivity|apply canned_answers|vm_compute; reflexivity
      |vm_compute; reflexivity].
Defined.

(** ** The temporary file and the remote calls of the upload handler *)

Lemma keeps_sent_ret {A} (a : A) : keeps_sent (ret a).
Proof. intros w. reflexivity. Qed.

Lemma keeps_sent_raise {A} (e : exn) : keeps_sent (@raise A e).
Proof. intros w. reflexivity. Qed.

Lemma keeps_sent_lift {A} (r : result A) : keeps_sent (lift r).
Proof. intros w. reflexivity. Qed.

Lemma keeps_sent_print (line : str) : keeps_sent (print line).
Proof. intros w. reflexivity. Qed.

Lemma keeps_sent_bind {A B} (c : M A) (k : A -> M B) :
  keeps_sent c -> (forall a, keeps_sent (k a)) -> keeps_sent (bind c k).
Proof.
  intros Hc Hk w. unfold bind. specialize (Hc w).
  destruct (c w) as [[a|e] w']; simpl in *.
  - rewrite Hk. exact Hc.
  - exact Hc.
Qed.

Lemma keeps_sent_try_except {A} (c : M A) (h : exn -> M A) :
  keeps_sent c -> (forall e, keeps_sent (h e)) -> keeps_sent (try_except c h).
Proof.
  intros Hc Hh w. unfold try_except. specialize (Hc w).
  destruct (c w) as [[a|e] w']; simpl in *.
  - exact Hc.
  - rewrite Hh. exact Hc.
Qed.

Lemma keeps_sent_try_finally {A} (c : M A) (f : M unit) :
  keeps_sent c -> keeps_sent f -> keeps_sent (try_finally c f).
Proof.
  intros Hc Hf w. unfold try_finally. specialize (Hc w).
  destruct (c w) as [r w']. specialize (Hf w').
  destruct (f w') as [[u|e] w'']; simpl in *; congruence.
Qed.

Lemma keeps_sent_open_wb (path : str) : keeps_sent (open_wb path).
Proof.
  intros w. unfold open_wb.
  destruct (fs w !! path) as [[data|]|]; [reflexivity|reflexivity|].
  destruct (may_create w path); reflexivity.
Qed.

Lemma keeps_sent_write_file (path : str) (data : list Byte.byte) :
  keeps_sent (write_file path data).
Proof. intros w. reflexivity. Qed.

Lemma keeps_sent_exists (path : str) : keeps_sent (os_path_exists path).
Proof. intros w. reflexivity. Qed.

Lemma keeps_sent_remove (path : str) : keeps_sent (os_remove path).
Proof.
  intros w. unfold os_remove.
  destruct (fs w !! path) as [[data|]|]; [|reflexivity|reflexivity].
  destruct (may_create w path); reflexivity.
Qed.

Lemma keeps_sent_fitz_open fitz_parse (path : str) :
  keeps_sent (fitz_open fitz_parse path).
Proof.
  intros w. unfold fitz_open.
  destruct (fs w !! path) as [[data|]|]; reflexivity.
Qed.

Lemma keeps_sent_page_texts (doc : list (result str)) (full_text : str) :
  keeps_sent (page_texts doc full_text).
Proof.
  revert full_text. induction doc as [|page doc IH]; intros full_text.
  - apply keeps_sent_ret.
  - simpl. apply keeps_sent_bind; [apply keeps_sent_lift|].
    intros text. apply IH.
Qed.

Create HintDb sent_db.
#[local] Hint Resolve keeps_sent_ret keeps_sent_raise keeps_sent_lift
  keeps_sent_print keeps_sent_open_wb keeps_sent_write_file keeps_sent_exists
  keeps_sent_remove keeps_sent_fitz_open keeps_sent_page_texts : sent_db.

Lemma yields_ret {A} (P : A -> Prop) (a : A) : P a -> yields P (ret a).
Proof. intros HP w a' [= <-]. exact HP. Qed.

Lemma yields_bind {A B} (P : B -> Prop) (c : M A) (k : A -> M B) :
  (forall a, yields P (k a)) -> yields P (bind c k).
Proof.
  intros Hk w b. unfold bind.
  destruct (c w) as [[a|e] w']; simpl; [apply Hk|discriminate].
Qed.

Lemma yields_try_except {A} (P : A -> Prop) (c : M A) (h : exn -> M A) :
  yields P c -> (forall e, yields P (h e)) -> yields P (try_except c h).
Proof.
  intros Hc Hh w a. unfold try_except. specialize (Hc w).
  destruct (c w) as [[a'|e] w']; simpl in *; [apply Hc|apply Hh].
Qed.

Lemma yields_try_finally {A} (P : A -> Prop) (c : M A) (f : M unit) :
  yields P c -> yields P (try_finally c f).
Proof.
  intros Hc w a. unfold try_finally. specialize (Hc w).
  destruct (c w) as [r w']. destruct (f w') as [[u|e] w'']; simpl in *;
    [apply Hc|discriminate].
Qed.


















(** The same upload where a directory sits at the temporary path: nothing
    is written, the handler raises and the directory stays. *)
Example upload_onto_a_directory :
  let paper :=
    MkUploadFile (Some (lit "notes.txt")) (Ok [Byte.x68; Byte.x69]) in
  let out := upload_paper fitz_refuses None paper directory_world in
  fst out = Raise (Exn OSError (lit "Is a directory")) /\
  fs (snd out) !! lit "temp_notes.txt" = Some Dir.
Proof. cbv zeta. split; vm_compute; reflexivity. Qed.



(** A text file sent where a PDF is expected: the library refuses it, the
    handler redirects to the landing page, and the directory is empty
    again. *)
Example upload_of_a_text_file :
  let paper :=
    MkUploadFile (Some (lit "notes.txt")) (Ok [Byte.x68; Byte.x69]) in
  let out := upload_paper fitz_refuses None paper empty_world in
  fst out = Ok (RedirectResponse (lit "/") 303) /\
  fs (snd out) !! lit "temp_notes.txt" = None.
Proof. cbv zeta. split; vm_compute; reflexivity. Qed.

Lemma upload_keeps_sent_unconfigured
    (fitz_parse : list Byte.byte -> result (list (result str)))
    (paper : UploadFile) :
  keeps_sent (upload_paper fitz_parse None paper).
Proof.
  unfold upload_paper.
  apply keeps_sent_try_finally.
  - apply keeps_sent_try_except; [|intros e; apply keeps_sent_ret].
    repeat (apply keeps_sent_bind; [auto with sent_db|intros ?]).
    apply keeps_sent_ret.
  - apply keeps_sent_bind; [auto with sent_db|intros found].
    apply keeps_sent_bind; [|intros ?; apply keeps_sent_ret].
    destruct found; auto with sent_db.
Qed.

Lemma upload_summary_unconfigured
    (fitz_parse : list Byte.byte -> result (list (result str)))
    (paper : UploadFile) :
  yields (fun resp =>
            forall name summary raw_abstract,
              resp = ResultsPage name summary raw_abstract ->
              summary = Some summary_unconfigured)
         (upload_paper fitz_parse None paper).
Proof.
  unfold upload_paper.
  apply yields_try_finally, yields_try_except.
  - do 5 (apply yields_bind; intros ?).
    intros w resp. unfold bind, ret. simpl. intros [= <-].
    intros name summary raw_abstract [= _ <- _]. reflexivity.
  - intros e. apply yields_ret. discriminate.
Qed.

(** C6: when the environment holds no key, or an empty one, the client is
    never built; then the upload handler sends nothing to the remote service
    and every results page it returns has the fixed placeholder "Mistral API
    client not configured. Please set MISTRAL_API_KEY in .env" as its
    summary, and quiz and flashcard generation send nothing and return the
    empty sequence. *)
Theorem C6_unconfigured_client_short_circuits
    (fitz_parse : list Byte.byte -> result (list (result str)))
    (MISTRAL_API_KEY : option str)
    (remote : chat_request -> result chat_response)
    (paper : UploadFile) (abstract difficulty : str)
    (num_questions num_cards : Z) (w : world) :
  MISTRAL_API_KEY = None \/ MISTRAL_API_KEY = Some [] ->
  let client := init_client MISTRAL_API_KEY remote in
  let uploaded := upload_paper fitz_parse client paper w in
  let quiz := generate_quiz_from_text client abstract num_questions
                difficulty w in
  let cards := generate_flashcards_from_text client abstract num_cards w in
  client = None /\
  sent (snd uploaded) = sent w /\
  (forall name summary raw_abstract,
     fst uploaded = Ok (ResultsPage name summary raw_abstract) ->
     summary = Some summary_unconfigured) /\
  fst quiz = Ok [] /\ sent (snd quiz) = sent w /\
  fst cards = Ok [] /\ sent (snd cards) = sent w.
Proof.
  intros Hkey.
  assert (Hclient : init_client MISTRAL_API_KEY remote = None)
    by (destruct Hkey as [->| ->]; reflexivity).
  cbv zeta. rewrite Hclient.
  split; [reflexivity|].
  split; [apply upload_keeps_sent_unconfigured|].
  split.
  - intros name summary raw_abstract Hout.
    exact (upload_summary_unconfigured fitz_parse paper w _ Hout
             name summary raw_abstract eq_refl).
  - repeat split.
Qed.

Lemma C6_witness :
  let paper :=
    MkUploadFile (Some (lit "paper.pdf")) (Ok [Byte.x25; Byte.x50]) in
  let pages (_ : list Byte.byte) :=
    Ok [Ok (lit "Abstract Cats sleep. Introduction Cats are old.")] in
  (@None str = None \/ @None str = Some []) /\
  upload_paper pages None paper empty_world
  = (Ok (ResultsPage (Some (lit "paper.pdf")) (Some summary_unconfigured)
           (lit "Cats sleep.")),
     empty_world) /\
  fst (generate_quiz_from_text None (lit "Cats sleep.") 3 (lit "easy")
         empty_world) = Ok [] /\
  fst (generate_flashcards_from_text None (lit "Cats sleep.") 5 empty_world)
  = Ok [].
Proof.
  cbv zeta. split; [left; reflexivity|].
  destruct (C6_unconfigured_client_short_circuits
              (fun _ => Ok [Ok (lit "Abstract Cats sleep. Introduction Cats are old.")])
              None (fun _ => Raise (Exn RemoteError (lit "unreachable")))
              (MkUploadFile (Some (lit "paper.pdf")) (Ok [Byte.x25; Byte.x50]))
              (lit "Cats sleep.") (lit "easy") 3 5 empty_world
              (or_introl eq_refl))
    as (_ & _ & _ & Hquiz & _ & Hcards & _).
  split; [|split; [exact Hquiz|exact Hcards]].
  vm_compute. reflexivity.
Defined.

(** ** More on the locator *)

Lemma slice_after (pre rest : str) (n : Z) :
  0 <= n ->
  slice (pre ++ rest) (len pre) (len pre + n) = take (Z.to_nat n) rest.
Proof.
  intros Hn. unfold slice.
  assert (Hlo : clip (len (pre ++ rest)) (len pre) = len pre).
  { unfold clip, len. rewrite length_app.
    destruct (Z.ltb_spec (Z.of_nat (length pre)) 0); lia. }
  assert (Hhi : clip (len (pre ++ rest)) (len pre + n)
                = len pre + Z.min n (len rest)).
  { unfold clip, len. rewrite length_app.
    destruct (Z.ltb_spec (Z.of_nat (length pre) + n) 0); lia. }
  rewrite Hlo, Hhi. unfold len. rewrite Nat2Z.id, drop_app_length.
  destruct (Z.le_ge_cases n (Z.of_nat (length rest))) as [Hle|Hge].
  - f_equal. lia.
  - rewrite !take_ge by lia. reflexivity.
Qed.

Lemma no_occurrence_before_find (s sub : str) (k : nat) :
  find s sub 0 = Z.of_nat k ->
  forall j, (j < k)%nat -> ~ occurs_at sub s j.
Proof.
  intros Hf j Hj Hocc.
  destruct (find_cases s sub 0 ltac:(lia)) as [[Hr _]|(k' & Hr & _ & _ & Hmin)];
    change (Z.of_nat 0) with 0 in Hr.
  - lia.
  - apply (Hmin j); [lia| |exact Hocc].
    assert (k' = k) by lia. subst k'. exact Hj.
Qed.

(** X1: when "abstract" is first read right after [pre], with no U+0130
    before it, and no "introduction" is read at or after it, the abstract is
    the trimmed stretch of at most 2992 code points that follows the marker
    (the cut is at 3000 counted from the start of the marker). *)
Theorem X1_locator_after_marker (pre a rest : str) :
  let full_text := pre ++ a ++ rest in
  lower a = start_marker ->
  304%N ∉ pre ->
  (forall j, (j < length pre)%nat ->
             ~ occurs_at start_marker (lower full_text) j) ->
  (forall q, (length pre <= q)%nat ->
             ~ occurs_at end_marker (lower full_text) q) ->
  abstract_locator full_text = strip (take 2992 rest) /\
  len (abstract_locator full_text) <= 2992.
Proof.
  intros full_text Ha Hpre Hfirst Hnone.
  assert (Hla : length a = 8%nat)
    by exact (lowered_marker_length a start_marker Ha start_marker_plain).
  assert (Hp : first_at_or_after start_marker (lower full_text) 0
                 (length pre)).
  { split; [lia|]. split.
    - exists (lower pre), (lower rest). split.
      + unfold full_text. rewrite !lower_app, Ha. reflexivity.
      + apply length_lower. exact Hpre.
    - intros j _ Hj. apply Hfirst. exact Hj. }
  assert (Hres : abstract_locator full_text = strip (take 2992 rest)).
  { unfold abstract_locator.
    rewrite (locator_abstract_only _ _ Hp Hnone). f_equal.
    replace (Z.of_nat (length pre) + 8) with (len (pre ++ a))
      by (unfold len; rewrite length_app; lia).
    replace (Z.of_nat (length pre) + 3000) with (len (pre ++ a) + 2992)
      by (unfold len; rewrite length_app; lia).
    unfold full_text. rewrite (app_assoc pre a rest).
    rewrite slice_after by lia. reflexivity. }
  split; [exact Hres|].
  rewrite Hres. pose proof (length_strip (take 2992 rest)) as Hs.
  rewrite length_take in Hs. unfold len. lia.
Qed.

Lemma X1_witness :
  abstract_locator (lit "Abstract: cats sleep a lot. Keywords: cats")
  = lit ": cats sleep a lot. Keywords: cats" /\
  len (abstract_locator (lit "Abstract: cats sleep a lot. Keywords: cats"))
  <= 2992.
Proof.
  destruct (X1_locator_after_marker [] (lit "Abstract")
              (lit ": cats sleep a lot. Keywords: cats")) as [Hres Hlen].
  - vm_compute. reflexivity.
  - apply not_elem_of_nil.
  - intros j Hj. simpl in Hj. lia.
  - intros q _. apply no_occurrence_of_find. vm_compute. reflexivity.
  - split; [|exact Hlen].
    etransitivity; [exact Hres|]. vm_compute. reflexivity.
Defined.

(** X2: when "abstract" is first read right after [pre] and "introduction"
    is first read, from there on, right after [mid], with no U+0130 before
    the second marker, the abstract is [mid] trimmed, whatever the case of
    the letters of the two markers. *)
Theorem X2_locator_between_markers (pre a mid i post : str) :
  let full_text := pre ++ a ++ mid ++ i ++ post in
  lower a = start_marker ->
  lower i = end_marker ->
  304%N ∉ pre ->
  304%N ∉ mid ->
  (forall j, (j < length pre)%nat ->
             ~ occurs_at start_marker (lower full_text) j) ->
  (forall j, (length pre <= j)%nat -> (j < length pre + 8 + length mid)%nat ->
             ~ occurs_at end_marker (lower full_text) j) ->
  abstract_locator full_text = strip mid /\
  find (lower full_text) start_marker 0 = len pre /\
  find (lower full_text) end_marker (len pre) = len pre + 8 + len mid.
Proof.
  intros full_text Ha Hi Hpre Hmid Hfirst Hlater.
  split; [exact (locator_between_markers pre a mid i post Ha Hi Hpre Hmid
                   Hfirst Hlater)|].
  assert (Hlow : lower full_text
                 = lower pre ++ start_marker ++ lower mid ++ end_marker
                   ++ lower post).
  { unfold full_text. rewrite !lower_app, Ha, Hi. reflexivity. }
  split.
  - change 0 with (Z.of_nat 0). unfold len. apply find_first.
    split; [lia|]. split.
    + exists (lower pre), (lower mid ++ end_marker ++ lower post).
      split; [exact Hlow|apply length_lower; exact Hpre].
    + intros j _ Hj. apply Hfirst. exact Hj.
  - unfold len.
    replace (Z.of_nat (length pre) + 8 + Z.of_nat (length mid))
      with (Z.of_nat (length pre + 8 + length mid)) by lia.
    apply find_first. split; [lia|]. split.
    + exists (lower pre ++ start_marker ++ lower mid), (lower post). split.
      * rewrite Hlow, <- !app_assoc. reflexivity.
      * rewrite !length_app, !length_lower by assumption.
        change (length start_marker) with 8%nat. lia.
    + exact Hlater.
Qed.

Lemma plain_text (s : str) :
  forallb (fun c => negb (c =? 304)%N) s = true -> 304%N ∉ s.
Proof.
  intros Hall Hin. rewrite forallb_forall in Hall.
  apply list_elem_of_In in Hin. specialize (Hall _ Hin).
  vm_compute in Hall. discriminate.
Qed.

Lemma X2_witness :
  abstract_locator
    (lit "A. Author ABSTRACT We present X. INTRODUCTION Prior work...")
  = lit "We present X.".
Proof.
  destruct (X2_locator_between_markers (lit "A. Author ") (lit "ABSTRACT")
              (lit " We present X. ") (lit "INTRODUCTION")
              (lit " Prior work...")) as (Hres & _ & _).
  - vm_compute. reflexivity.
  - vm_compute. reflexivity.
  - apply plain_text. vm_compute. reflexivity.
  - apply plain_text. vm_compute. reflexivity.
  - apply (no_occurrence_before_find _ _ 10). vm_compute. reflexivity.
  - intros j _ Hj.
    apply (no_occurrence_before_find _ _ 33); [vm_compute; reflexivity|].
    simpl in Hj. lia.
  - etransitivity; [exact Hres|]. vm_compute. reflexivity.
Defined.

Lemma lstrip_suffix (s : str) : exists pre, s = pre ++ lstrip s.
Proof.
  induction s as [|c s [pre IH]]; [exists []; reflexivity|].
  simpl. destruct (isspace c).
  - exists (c :: pre). simpl. f_equal. exact IH.
  - exists []. reflexivity.
Qed.

Lemma rstrip_prefix (s : str) : exists post, s = rstrip s ++ post.
Proof.
  unfold rstrip. destruct (lstrip_suffix (rev s)) as [pre Hpre].
  exists (rev pre). rewrite <- rev_app_distr, <- Hpre.
  symmetry. apply rev_involutive.
Qed.

Lemma strip_substring (s : str) : substring_of (strip s) s.
Proof.
  destruct (lstrip_suffix s) as [pre Hpre].
  destruct (rstrip_prefix (lstrip s)) as [post Hpost].
  exists pre, post. unfold strip. rewrite <- Hpost. exact Hpre.
Qed.

Lemma slice_substring (s : str) (lo hi : Z) : substring_of (slice s lo hi) s.
Proof.
  unfold slice.
  set (a := Z.to_nat (clip (len s) lo)).
  set (n := Z.to_nat (clip (len s) hi - clip (len s) lo)).
  exists (take a s), (drop n (drop a s)).
  rewrite take_drop. symmetry. apply take_drop.
Qed.

Lemma substring_trans (r s t : str) :
  substring_of r s -> substring_of s t -> substring_of r t.
Proof.
  intros (p1 & q1 & ->) (p2 & q2 & ->).
  exists (p2 ++ p1), (q1 ++ q2). rewrite <- !app_assoc. reflexivity.
Qed.

(** X3: the abstract is the sentinel or a stretch of the text: the locator
    makes up no text of its own. *)
Theorem X3_sentinel_or_substring (full_text : str) :
  abstract_locator full_text = sentinel \/
  substring_of (abstract_locator full_text) full_text.
Proof.
  unfold abstract_locator, locate_try.
  destruct (negb (find (lower full_text) start_marker 0 =? -1)).
  - right.
    destruct (negb (find (lower full_text) end_marker
                      (find (lower full_text) start_marker 0) =? -1)); simpl;
      (eapply substring_trans; [apply strip_substring|apply slice_substring]).
  - left. reflexivity.
Qed.

Lemma lstrip_head (s : str) (c : N) (r : str) :
  lstrip s = c :: r -> isspace c = false.
Proof.
  induction s as [|b s IH]; simpl; [discriminate|].
  destruct (isspace b) eqn:Hb; [exact IH|].
  intros [= <- _]. exact Hb.
Qed.

Lemma rstrip_last (s r : str) (c : N) :
  rstrip s = r ++ [c] -> isspace c = false.
Proof.
  unfold rstrip. intros H. apply (f_equal (@rev N)) in H.
  rewrite rev_involutive, rev_app_distr in H. simpl in H.
  exact (lstrip_head _ _ _ H).
Qed.

Lemma strip_trimmed (s : str) : trimmed (strip s).
Proof.
  split.
  - intros c r' H. destruct (rstrip_prefix (lstrip s)) as [post Hpost].
    unfold strip in H. rewrite H in Hpost. simpl in Hpost.
    exact (lstrip_head _ _ _ Hpost).
  - intros r' c H. exact (rstrip_last _ _ _ H).
Qed.

Lemma sentinel_trimmed : trimmed sentinel.
Proof.
  split.
  - intros c r' H. vm_compute in H. injection H as <- _. reflexivity.
  - intros r' c H. apply (f_equal last) in H.
    rewrite last_snoc in H. vm_compute in H. injection H as <-. reflexivity.
Qed.

(** X4: whatever the text, the abstract neither starts nor ends with white
    space. *)
Theorem X4_abstract_is_trimmed (full_text : str) :
  trimmed (abstract_locator full_text).
Proof.
  unfold abstract_locator, locate_try.
  destruct (negb (find (lower full_text) start_marker 0 =? -1)).
  - destruct (negb (find (lower full_text) end_marker
                      (find (lower full_text) start_marker 0) =? -1)); simpl;
      apply strip_trimmed.
  - simpl. apply sentinel_trimmed.
Qed.

(** The two markers cannot overlap: "abstract" has no letter i. *)
Lemma markers_apart (s : str) (p q : nat) :
  occurs_at start_marker s p -> occurs_at end_marker s q ->
  (p <= q)%nat -> (p + 8 <= q)%nat.
Proof.
  intros (pre & post & Hs & Hp) (pre' & post' & Hs' & Hq) Hpq.
  destruct (le_lt_dec (p + 8) q) as [Hok|Hin]; [exact Hok|exfalso].
  assert (H1 : s !! q = Some 105%N).
  { rewrite Hs', lookup_app_r by lia.
    replace (q - length pre')%nat with 0%nat by lia. reflexivity. }
  assert (H2 : s !! q = start_marker !! (q - p)%nat).
  { rewrite Hs, lookup_app_r by lia. rewrite Hp.
    apply lookup_app_l. change (length start_marker) with 8%nat. lia. }
  rewrite H1 in H2.
  assert (Hd : (q - p < 8)%nat) by lia.
  revert H2 Hd. generalize (q - p)%nat as d. intros d H2 Hd.
  do 8 (destruct d as [|d]; [vm_compute in H2; discriminate|]). lia.
Qed.

(** X5: when both positions are found, the "introduction" starts at or
    after the end of the "abstract": the search for the second marker starts
    on the first letter of the first one and still cannot land inside it, so
    the bounds of the slice are in order, and the abstract is no longer than
    the gap between the two positions. *)
Theorem X5_markers_in_order (full_text : str) :
  let start_index := find (lower full_text) start_marker 0 in
  let end_index := find (lower full_text) end_marker start_index in
  start_index <> -1 -> end_index <> -1 ->
  0 <= start_index /\ start_index + len start_marker <= end_index /\
  end_index + len end_marker <= len (lower full_text) /\
  len (abstract_locator full_text)
  <= end_index - (start_index + len start_marker).
Proof.
  cbv zeta. intros Hs He.
  assert (Hloc : abstract_locator full_text
                 = strip (slice full_text
                            (find (lower full_text) start_marker 0
                             + len start_marker)
                            (find (lower full_text) end_marker
                               (find (lower full_text) start_marker 0)))).
  { unfold abstract_locator, locate_try.
    destruct (Z.eqb_spec (find (lower full_text) start_marker 0) (-1));
      [contradiction|].
    destruct (Z.eqb_spec (find (lower full_text) end_marker
                            (find (lower full_text) start_marker 0)) (-1));
      [contradiction|].
    reflexivity. }
  rewrite Hloc. clear Hloc.
  destruct (find_cases (lower full_text) start_marker 0 ltac:(lia))
    as [[Hr _]|(p & Hr & _ & Hp & _)]; change (Z.of_nat 0) with 0 in Hr;
    [contradiction|].
  rewrite Hr in He |- *.
  assert (Hpl : (p <= length (lower full_text))%nat)
    by (apply occurs_at_bound in Hp; lia).
  destruct (find_cases (lower full_text) end_marker p Hpl)
    as [[Hr' _]|(q & Hr' & Hpq & Hq & _)]; [contradiction|].
  rewrite Hr'.
  pose proof (markers_apart _ _ _ Hp Hq Hpq) as Hapart.
  apply occurs_at_bound in Hq.
  change (len start_marker) with 8. change (len end_marker) with 12.
  change (length end_marker) with 12%nat in Hq.
  pose proof (length_strip (slice full_text (Z.of_nat p + 8) (Z.of_nat q)))
    as Hstrip.
  pose proof (len_slice full_text (Z.of_nat p + 8) (Z.of_nat q)
                ltac:(lia) ltac:(lia)) as Hslice.
  unfold len in *. lia.
Qed.

Lemma X5_witness :
  let full_text := lit "Abstract. We present X. Introduction. Prior work..." in
  find (lower full_text) start_marker 0 = 0 /\
  find (lower full_text) end_marker 0 = 24 /\
  0 + len start_marker <= 24.
Proof.
  cbv zeta.
  split; [vm_compute; reflexivity|]. split; [vm_compute; reflexivity|].
  destruct (X5_markers_in_order
              (lit "Abstract. We present X. Introduction. Prior work..."))
    as (_ & H & _ & _).
  - vm_compute. discriminate.
  - vm_compute. discriminate.
  - vm_compute in H |- *. exact H.
Defined.

(** ** More on the upload handler *)
















(** ** More on generation *)

Lemma quiz_handler_world (client : option Mistral) (abstract difficulty : str)
    (num_questions : Z) (w : world) :
  snd (get_quiz_questions client abstract difficulty num_questions w)
  = snd (generate_quiz_from_text client abstract num_questions difficulty w).
Proof.
  unfold get_quiz_questions, bind.
  destruct (generate_quiz_from_text client abstract num_questions difficulty w)
    as [[l|e] w']; [destruct l|]; reflexivity.
Qed.

Lemma flashcards_handler_world (client : option Mistral) (abstract : str)
    (num_cards : Z) (w : world) :
  snd (get_flashcards client abstract num_cards w)
  = snd (generate_flashcards_from_text client abstract num_cards w).
Proof.
  unfold get_flashcards, bind.
  destruct (generate_flashcards_from_text client abstract num_cards w)
    as [[l|e] w']; [destruct l|]; reflexivity.
Qed.

Lemma generate_quiz_sends (client : Mistral) (text difficulty : str)
    (num_questions : Z) (w : world) :
  let out := generate_quiz_from_text (Some client) text num_questions
               difficulty w in
  sent (snd out) = sent w ++ [quiz_request text num_questions difficulty] /\
  fs (snd out) = fs w.
Proof.
  cbv zeta. unfold quiz_request.
  unfold generate_quiz_from_text, try_except, bind, chat_complete, first_item,
    lift, py_get, print, ret, raise.
  simpl. destruct (endpoint client _) as [resp|e]; simpl;
    [|split; reflexivity].
  destruct (choices resp) as [|ch rest]; simpl; [split; reflexivity|].
  destruct (json_loads (message_content ch)) as [v|e]; simpl;
    [|split; reflexivity].
  destruct v; simpl; try (split; reflexivity).
  destruct (dict_lookup items (lit "questions")) as [x|]; simpl;
    [destruct x|]; split; reflexivity.
Qed.

Lemma generate_flashcards_sends (client : Mistral) (text : str)
    (num_cards : Z) (w : world) :
  let out := generate_flashcards_from_text (Some client) text num_cards w in
  sent (snd out) = sent w ++ [flashcards_request text num_cards] /\
  fs (snd out) = fs w.
Proof.
  cbv zeta. unfold flashcards_request.
  unfold generate_flashcards_from_text, try_except, bind, chat_complete,
    first_item, lift, py_get, print, ret, raise.
  simpl. destruct (endpoint client _) as [resp|e]; simpl;
    [|split; reflexivity].
  destruct (choices resp) as [|ch rest]; simpl; [split; reflexivity|].
  destruct (json_loads (message_content ch)) as [v|e]; simpl;
    [|split; reflexivity].
  destruct v; simpl; try (split; reflexivity).
  destruct (dict_lookup items (lit "flashcards")) as [x|]; simpl;
    [destruct x|]; split; reflexivity.
Qed.

(** X10: with a configured client, the quiz handler and the flashcard
    handler each send exactly one request to the remote model, in JSON mode,
    whatever comes back (no second try after a failure), and change no
    file. *)
Theorem X10_one_request_per_generation
    (client : Mistral) (abstract difficulty : str)
    (num_questions num_cards : Z) (w : world) :
  let quiz :=
    get_quiz_questions (Some client) abstract difficulty num_questions w in
  let cards := get_flashcards (Some client) abstract num_cards w in
  sent (snd quiz)
  = sent w ++ [quiz_request abstract num_questions difficulty] /\
  fs (snd quiz) = fs w /\
  sent (snd cards) = sent w ++ [flashcards_request abstract num_cards] /\
  fs (snd cards) = fs w /\
  response_format (quiz_request abstract num_questions difficulty)
  = Some (lit "json_object") /\
  response_format (flashcards_request abstract num_cards)
  = Some (lit "json_object").
Proof.
  cbv zeta. rewrite quiz_handler_world, flashcards_handler_world.
  destruct (generate_quiz_sends client abstract difficulty num_questions w)
    as [Hq1 Hq2].
  destruct (generate_flashcards_sends client abstract num_cards w)
    as [Hc1 Hc2].
  repeat split; assumption.
Qed.

(** X11: when the call to the remote model raises, or its answer has no
    choice, quiz generation and flashcard generation return the empty
    sequence, a line with the text of the exception is printed in the first
    case, and the handlers show the empty view with their error message. *)
Theorem X11_remote_failure_gives_empty
    (client : Mistral) (abstract difficulty : str)
    (num_questions num_cards : Z) (w : world) :
  (forall e,
     endpoint client (quiz_request abstract num_questions difficulty)
     = Raise e ->
     fst (generate_quiz_from_text (Some client) abstract num_questions
            difficulty w) = Ok [] /\
     stdout (snd (generate_quiz_from_text (Some client) abstract num_questions
                    difficulty w))
     = stdout w ++ [generation_error_line e] /\
     fst (get_quiz_questions (Some client) abstract difficulty num_questions w)
     = Ok (QuizPage [] (Some quiz_error_message))) /\
  (forall e,
     endpoint client (flashcards_request abstract num_cards) = Raise e ->
     fst (generate_flashcards_from_text (Some client) abstract num_cards w)
     = Ok [] /\
     stdout (snd (generate_flashcards_from_text (Some client) abstract
                    num_cards w))
     = stdout w ++ [generation_error_line e] /\
     fst (get_flashcards (Some client) abstract num_cards w)
     = Ok (FlashcardsPage [] (Some flashcards_error_message))) /\
  (forall resp,
     endpoint client (quiz_request abstract num_questions difficulty)
     = Ok resp ->
     choices resp = [] ->
     fst (get_quiz_questions (Some client) abstract difficulty num_questions w)
     = Ok (QuizPage [] (Some quiz_error_message))) /\
  (forall resp,
     endpoint client (flashcards_request abstract num_cards) = Ok resp ->
     choices resp = [] ->
     fst (get_flashcards (Some client) abstract num_cards w)
     = Ok (FlashcardsPage [] (Some flashcards_error_message))).
Proof.
  split; [|split; [|split]].
  - intros e He.
    assert (Hgen : generate_quiz_from_text (Some client) abstract
                     num_questions difficulty w
                   = (Ok [], World (fs w) (may_create w)
                               (sent w ++ [quiz_request abstract num_questions
                                             difficulty])
                               (stdout w ++ [generation_error_line e]))).
    { unfold quiz_request in *.
      unfold generate_quiz_from_text, try_except, bind, chat_complete.
      cbv zeta. rewrite He. reflexivity. }
    split; [rewrite Hgen; reflexivity|]. split; [rewrite Hgen; reflexivity|].
    apply (get_quiz_view _ _ _ _ _ []). rewrite Hgen. reflexivity.
  - intros e He.
    assert (Hgen : generate_flashcards_from_text (Some client) abstract
                     num_cards w
                   = (Ok [], World (fs w) (may_create w)
                               (sent w ++ [flashcards_request abstract
                                             num_cards])
                               (stdout w ++ [generation_error_line e]))).
    { unfold flashcards_request in *.
      unfold generate_flashcards_from_text, try_except, bind, chat_complete.
      cbv zeta. rewrite He. reflexivity. }
    split; [rewrite Hgen; reflexivity|]. split; [rewrite Hgen; reflexivity|].
    apply (get_flashcards_view _ _ _ _ []). rewrite Hgen. reflexivity.
  - intros resp He Hc. apply (get_quiz_view _ _ _ _ _ []).
    unfold quiz_request in *.
    unfold generate_quiz_from_text, try_except, bind, chat_complete,
      first_item.
    cbv zeta. rewrite He. cbv beta iota. rewrite Hc. reflexivity.
  - intros resp He Hc. apply (get_flashcards_view _ _ _ _ []).
    unfold flashcards_request in *.
    unfold generate_flashcards_from_text, try_except, bind, chat_complete,
      first_item.
    cbv zeta. rewrite He. cbv beta iota. rewrite Hc. reflexivity.
Qed.

Lemma X11_witness :
  let client :=
    MkMistral (lit "test-key")
      (fun _ => Raise (Exn RemoteError (lit "503 Service Unavailable"))) in
  let abstract := lit "Cats sleep a lot." in
  generate_quiz_from_text (Some client) abstract 3 (lit "easy") empty_world
  = (Ok [],
     World ∅ (fun _ => true) [quiz_request abstract 3 (lit "easy")]
       [lit "An unexpected error occurred with the Mistral API call: 503 Service Unavailable"]) /\
  fst (get_quiz_questions (Some client) abstract (lit "easy") 3 empty_world)
  = Ok (QuizPage [] (Some quiz_error_message)).
Proof.
  cbv zeta.
  destruct (X11_remote_failure_gives_empty
              (MkMistral (lit "test-key")
                 (fun _ => Raise (Exn RemoteError
                                    (lit "503 Service Unavailable"))))
              (lit "Cats sleep a lot.") (lit "easy") 3 5 empty_world)
    as (Hquiz & _).
  destruct (Hquiz (Exn RemoteError (lit "503 Service Unavailable")) eq_refl)
    as (_ & _ & Hview).
  split; [vm_compute; reflexivity|exact Hview].
Defined.

(** X12: when the answer of the remote model is a JSON object, a missing
    key gives the empty sequence and prints nothing, while a value under the
    key that is not a sequence gives the empty sequence and prints "Error:
    The 'questions' key did not contain a list." (or the same line for
    'flashcards'). *)
Theorem X12_missing_key_is_silent
    (client : Mistral) (abstract difficulty : str)
    (num_questions num_cards : Z) (w : world) :
  (forall content_str d,
     answers client (quiz_request abstract num_questions difficulty)
       content_str ->
     json_loads content_str = Ok (JDict d) ->
     let out := generate_quiz_from_text (Some client) abstract num_questions
                  difficulty w in
     (dict_lookup d (lit "questions") = None ->
      fst out = Ok [] /\ stdout (snd out) = stdout w) /\
     (forall v, dict_lookup d (lit "questions") = Some v ->
                (forall l, v <> JList l) ->
                fst out = Ok [] /\
                stdout (snd out)
                = stdout w
                  ++ [lit "Error: The 'questions' key did not contain a list."])) /\
  (forall content_str d,
     answers client (flashcards_request abstract num_cards) content_str ->
     json_loads content_str = Ok (JDict d) ->
     let out := generate_flashcards_from_text (Some client) abstract
                  num_cards w in
     (dict_lookup d (lit "flashcards") = None ->
      fst out = Ok [] /\ stdout (snd out) = stdout w) /\
     (forall v, dict_lookup d (lit "flashcards") = Some v ->
                (forall l, v <> JList l) ->
                fst out = Ok [] /\
                stdout (snd out)
                = stdout w
                  ++ [lit "Error: The 'flashcards' key did not contain a list."])).
Proof.
  split.
  - intros content_str d (resp & ch & rest & He & Hc & Hm) Hjson.
    unfold quiz_request in He. cbv zeta.
    unfold generate_quiz_from_text, try_except, bind, chat_complete,
      first_item, lift, py_get, print, ret, raise.
    simpl. rewrite He. simpl. rewrite Hc. simpl. rewrite Hm, Hjson. simpl.
    split.
    + intros ->. split; reflexivity.
    + intros v -> Hv. destruct v; try (split; reflexivity).
      exfalso. exact (Hv items eq_refl).
  - intros content_str d (resp & ch & rest & He & Hc & Hm) Hjson.
    unfold flashcards_request in He. cbv zeta.
    unfold generate_flashcards_from_text, try_except, bind, chat_complete,
      first_item, lift, py_get, print, ret, raise.
    simpl. rewrite He. simpl. rewrite Hc. simpl. rewrite Hm, Hjson. simpl.
    split.
    + intros ->. split; reflexivity.
    + intros v -> Hv. destruct v; try (split; reflexivity).
      exfalso. exact (Hv items eq_refl).
Qed.

Lemma X12_witness :
  let abstract := lit "Cats sleep a lot." in
  let no_list := lit "{" ++ quoted (lit "questions") ++ lit ": 7}" in
  stdout (snd (generate_quiz_from_text (Some (canned answer_other_key))
                 abstract 3 (lit "easy") empty_world)) = [] /\
  stdout (snd (generate_quiz_from_text (Some (canned no_list))
                 abstract 3 (lit "easy") empty_world))
  = [lit "Error: The 'questions' key did not contain a list."].
Proof.
  cbv zeta. split.
  - destruct (X12_missing_key_is_silent (canned answer_other_key)
                (lit "Cats sleep a lot.") (lit "easy") 3 5 empty_world)
      as [Hquiz _].
    destruct (Hquiz (Some answer_other_key)
                [(lit "cards", JList [JInt 1])]
                (canned_answers _ _)) as [Hnone _].
    + vm_compute. reflexivity.
    + apply Hnone. vm_compute. reflexivity.
  - destruct (X12_missing_key_is_silent
                (canned (lit "{" ++ quoted (lit "questions") ++ lit ": 7}"))
                (lit "Cats sleep a lot.") (lit "easy") 3 5 empty_world)
      as [Hquiz _].
    destruct (Hquiz (Some (lit "{" ++ quoted (lit "questions") ++ lit ": 7}"))
                [(lit "questions", JInt 7)]
                (canned_answers _ _)) as [_ Hsome].
    + vm_compute. reflexivity.
    + apply (Hsome (JInt 7)); [vm_compute; reflexivity|discriminate].
Defined.

(** X13: when the remote call succeeds and its text is a JSON object with
    a sequence under "flashcards", flashcard generation returns that
    sequence as it came, whatever the number of cards asked for, and the
    handler shows it with no error message when it is not empty. *)
Theorem X13_flashcards_returns_remote_sequence
    (client : Mistral) (abstract : str) (num_cards : Z) (w : world)
    (content_str : option str) (d : list (str * json)) (l : list json) :
  answers client (flashcards_request abstract num_cards) content_str ->
  json_loads content_str = Ok (JDict d) ->
  dict_lookup d (lit "flashcards") = Some (JList l) ->
  fst (generate_flashcards_from_text (Some client) abstract num_cards w)
  = Ok l /\
  (l <> [] ->
   fst (get_flashcards (Some client) abstract num_cards w)
   = Ok (FlashcardsPage l None)).
Proof.
  intros Hans Hjson Hkey.
  pose proof (generate_flashcards_answered client abstract num_cards w
                content_str Hans) as Hgen.
  unfold parsed_entities in Hgen. rewrite Hjson, Hkey in Hgen.
  split; [exact Hgen|].
  intros Hne. rewrite (get_flashcards_view _ _ _ _ _ Hgen).
  destruct l; [contradiction|reflexivity].
Qed.

Lemma X13_witness :
  let answer :=
    lit "{" ++ quoted (lit "flashcards") ++ lit ": [{"
    ++ quoted (lit "term") ++ lit ": " ++ quoted (lit "cat") ++ lit "}]}" in
  let card := JDict [(lit "term", JStr (lit "cat"))] in
  fst (get_flashcards (Some (canned answer)) (lit "Cats sleep a lot.") 5
         empty_world)
  = Ok (FlashcardsPage [card] None).
Proof.
  cbv zeta.
  destruct (X13_flashcards_returns_remote_sequence
              (canned (lit "{" ++ quoted (lit "flashcards") ++ lit ": [{"
                       ++ quoted (lit "term") ++ lit ": "
                       ++ quoted (lit "cat") ++ lit "}]}"))
              (lit "Cats sleep a lot.") 5 empty_world
              (Some (lit "{" ++ quoted (lit "flashcards") ++ lit ": [{"
                     ++ quoted (lit "term") ++ lit ": "
                     ++ quoted (lit "cat") ++ lit "}]}"))
              [(lit "flashcards", JList [JDict [(lit "term", JStr (lit "cat"))]])]
              [JDict [(lit "term", JStr (lit "cat"))]])
    as [_ Hview].
  - apply canned_answers.
  - vm_compute. reflexivity.
  - vm_compute. reflexivity.
  - apply Hview. discriminate.
Defined.

(** X14: when the text of the remote answer is well-formed JSON but not an
    object (a list, a number, a string, null), looking up the key raises
    inside the [try]; generation returns the empty sequence, prints one line
    and the handler shows the empty view with its error message. *)
Theorem X14_json_that_is_no_object
    (client : Mistral) (abstract difficulty : str)
    (num_questions num_cards : Z) (w : world) :
  (forall content_str v,
     answers client (quiz_request abstract num_questions difficulty)
       content_str ->
     json_loads content_str = Ok v ->
     (forall d, v <> JDict d) ->
     let out := generate_quiz_from_text (Some client) abstract num_questions
                  difficulty w in
     fst out = Ok [] /\
     (exists line, stdout (snd out) = stdout w ++ [line]) /\
     fst (get_quiz_questions (Some client) abstract difficulty num_questions w)
     = Ok (QuizPage [] (Some quiz_error_message))) /\
  (forall content_str v,
     answers client (flashcards_request abstract num_cards) content_str ->
     json_loads content_str = Ok v ->
     (forall d, v <> JDict d) ->
     let out := generate_flashcards_from_text (Some client) abstract
                  num_cards w in
     fst out = Ok [] /\
     (exists line, stdout (snd out) = stdout w ++ [line]) /\
     fst (get_flashcards (Some client) abstract num_cards w)
     = Ok (FlashcardsPage [] (Some flashcards_error_message))).
Proof.
  split.
  - intros content_str v Hans Hjson Hv. cbv zeta.
    assert (Hgen : fst (generate_quiz_from_text (Some client) abstract
                          num_questions difficulty w) = Ok []).
    { rewrite (generate_quiz_answered _ _ _ _ _ _ Hans).
      unfold parsed_entities. rewrite Hjson.
      destruct v; try reflexivity. exfalso. exact (Hv items eq_refl). }
    split; [exact Hgen|]. split; [|exact (get_quiz_view _ _ _ _ _ _ Hgen)].
    destruct Hans as (resp & ch & rest & He & Hc & Hm).
    unfold quiz_request in He.
    unfold generate_quiz_from_text, try_except, bind, chat_complete,
      first_item, lift, py_get, print, ret, raise.
    simpl. rewrite He. simpl. rewrite Hc. simpl. rewrite Hm, Hjson. simpl.
    destruct v; simpl; eauto. exfalso. exact (Hv items eq_refl).
  - intros content_str v Hans Hjson Hv. cbv zeta.
    assert (Hgen : fst (generate_flashcards_from_text (Some client) abstract
                          num_cards w) = Ok []).
    { rewrite (generate_flashcards_answered _ _ _ _ _ Hans).
      unfold parsed_entities. rewrite Hjson.
      destruct v; try reflexivity. exfalso. exact (Hv items eq_refl). }
    split; [exact Hgen|].
    split; [|exact (get_flashcards_view _ _ _ _ _ Hgen)].
    destruct Hans as (resp & ch & rest & He & Hc & Hm).
    unfold flashcards_request in He.
    unfold generate_flashcards_from_text, try_except, bind, chat_complete,
      first_item, lift, py_get, print, ret, raise.
    simpl. rewrite He. simpl. rewrite Hc. simpl. rewrite Hm, Hjson. simpl.
    destruct v; simpl; eauto. exfalso. exact (Hv items eq_refl).
Qed.

Lemma X14_witness :
  let answer := lit "[{" ++ quoted (lit "question") ++ lit ": 1}]" in
  json_loads (Some answer)
  = Ok (JList [JDict [(lit "question", JInt 1)]]) /\
  fst (get_quiz_questions (Some (canned answer)) (lit "Cats sleep a lot.")
         (lit "easy") 3 empty_world)
  = Ok (QuizPage [] (Some quiz_error_message)).
Proof.
  cbv zeta. split; [vm_compute; reflexivity|].
  destruct (X14_json_that_is_no_object
              (canned (lit "[{" ++ quoted (lit "question") ++ lit ": 1}]"))
              (lit "Cats sleep a lot.") (lit "easy") 3 5 empty_world)
    as [Hquiz _].
  destruct (Hquiz (Some (lit "[{" ++ quoted (lit "question") ++ lit ": 1}]"))
              (JList [JDict [(lit "question", JInt 1)]])
              (canned_answers _ _)) as (_ & _ & Hview).
  - vm_compute. reflexivity.
  - discriminate.
  - exact Hview.
Defined.
